(** * GTG.core.requester: the query layer of the task store

    A shallow embedding of [Requester] (GTG/core/requester.py): the task
    filter [get_tasks_list], the selectors built on it
    ([get_active_tasks_list], [get_closed_tasks_list], [get_notes_list]) and
    the tag aggregation [get_used_tags].

    The requester holds nothing but a reference to its datastore, so every
    method is a function of the datastore.  A method call on [None] raises
    [AttributeError] in Python; it is the only exception the modelled code
    can raise itself, and it is threaded through a small error monad. *)

From Stdlib Require Import List String Bool Arith Lia.
Import ListNotations.
Open Scope string_scope.
Open Scope list_scope.

(** ** Exceptions *)

Inductive exn : Type :=
| AttributeError.

Inductive result (A : Type) : Type :=
| Ok (a : A)
| Raise (e : exn).

Arguments Ok {A} a.
Arguments Raise {A} e.

Definition bind {A B : Type} (m : result A) (k : A -> result B) : result B :=
  match m with
  | Ok a => k a
  | Raise e => Raise e
  end.

Notation "x <- m ;; k" := (bind m (fun x => k))
  (at level 61, m at next level, right associativity).

(** ** Data model *)

(** Task identifiers are strings such as ["3@1"]. *)
Definition tid : Type := string.

(** A tag: its name and its bag of named attributes. *)
Record Tag : Type := mkTag {
  tag_name : string;
  tag_attributes : list (string * string)
}.

Definition attribute_eq_dec (a b : string * string) : {a = b} + {a <> b}.
Proof. decide equality; apply string_dec. Defined.

Definition Tag_eq_dec (a b : Tag) : {a = b} + {a <> b}.
Proof.
  decide equality.
  - apply (list_eq_dec attribute_eq_dec).
  - apply string_dec.
Defined.

(** Python's [x in l] on a list of tags. *)
Definition tag_in (x : Tag) (l : list Tag) : bool :=
  if in_dec Tag_eq_dec x l then true else false.

(** Python's [x in l] on a list of statuses. *)
Definition status_in (x : string) (l : list string) : bool :=
  if in_dec string_dec x l then true else false.

(** What the requester reads of a task.  The accessors keep the names of the
    methods of the task object. *)
Record Task : Type := mkTask {
  get_status : string;
  get_tags : list Tag;
  get_parents : list tid;
  is_loaded : bool;
  is_started : bool;
  is_workable : bool
}.

(** Modelled from the spec: the tag store ([get_tagstore()] of the datastore)
    is not in the source; it holds the tags, and [get_all_tags] returns, as a
    fresh list, the tags whose attribute [attname] has the value [attvalue]
    (all tags when no attribute name is given). *)
Record tagstore : Type := mkTagstore {
  ts_tags : list Tag
}.

Definition has_attribute (attname attvalue : string) (t : Tag) : bool :=
  existsb (fun kv => String.eqb (fst kv) attname && String.eqb (snd kv) attvalue)
          (tag_attributes t).

Definition get_all_tags (ts : tagstore) (attname : option string)
           (attvalue : string) : list Tag :=
  match attname with
  | None => ts_tags ts
  | Some n => filter (has_attribute n attvalue) (ts_tags ts)
  end.

(** The datastore as the requester sees it: the identifiers it iterates
    over, a lookup that may resolve to nothing, and the tag store. *)
Record datastore : Type := mkDatastore {
  all_tasks : list tid;
  get_task : tid -> option Task;
  get_tagstore : tagstore
}.

(** The optional [tags] argument: [None] and the empty list both count as
    false in a condition. *)
Definition truthy (tags : option (list Tag)) : bool :=
  match tags with
  | Some (_ :: _) => true
  | _ => false
  end.

Definition tag_list (tags : option (list Tag)) : list Tag :=
  match tags with
  | Some l => l
  | None => []
  end.

(** Modelled from the spec: [Task.has_tags] is not in the source.  With
    [notag_only] it answers whether the task carries no tag at all, otherwise
    whether the task carries at least one tag of [tag_list] (OR semantics).
    The requester calls it with a non-empty list or with [notag_only] set. *)
Definition has_tags (t : Task) (tag_list : list Tag) (notag_only : bool) : bool :=
  if notag_only then
    match get_tags t with
    | [] => true
    | _ :: _ => false
    end
  else existsb (fun tag => tag_in tag (get_tags t)) tag_list.

(** Modelled from the spec: [Task.has_parents] is not in the source.  Without
    a tag list it answers whether the task has any parent; with one, whether
    some parent itself carries a tag of the list. *)
Definition has_parents (ds : datastore) (t : Task) (tag : option (list Tag)) : bool :=
  if truthy tag then
    existsb (fun p => match get_task ds p with
                      | Some pp => has_tags pp (tag_list tag) false
                      | None => false
                      end) (get_parents t)
  else
    match get_parents t with
    | [] => false
    | _ :: _ => true
    end.

(** ** get_tasks_list *)

(** Lines 132-135: every parent is looked up and asked for its status; the
    loop has no [break], and a parent that resolves to nothing makes
    [pp.get_status()] raise. *)
Fixpoint parents_loop (ds : datastore) (ps : list tid) (task : option Task)
  : result (option Task) :=
  match ps with
  | [] => Ok task
  | p :: ps' =>
      match get_task ds p with
      | None => Raise AttributeError
      | Some pp =>
          parents_loop ds ps'
            (if String.eqb (get_status pp) "Note" then task else None)
      end
  end.

(** The body of the loop of [get_tasks_list] for one identifier: the value of
    the variable [task] when line 146 is reached. *)
Definition select_task (ds : datastore) (tags : option (list Tag))
           (status : list string) (notag_only started_only is_root : bool)
           (t : tid) : result (option Task) :=
  let task := get_task ds t in
  let task := match task with
              | Some tk => if negb (is_loaded tk) then None else task
              | None => None
              end in
  let task := match task with
              | Some tk => if negb (status_in (get_status tk) status) then None else task
              | None => None
              end in
  task <- match task with
          | Some tk =>
              if truthy tags then
                if negb (has_tags tk (tag_list tags) false) then Ok None
                else if is_root && has_parents ds tk tags then Ok None
                else Ok task
              else if is_root then
                if has_parents ds tk None
                then parents_loop ds (get_parents tk) task
                else Ok task
              else Ok task
          | None => Ok None
          end ;;
  let task := match task with
              | Some tk =>
                  if notag_only then
                    if negb (has_tags tk [] notag_only) then None else task
                  else task
              | None => None
              end in
  let task := match task with
              | Some tk =>
                  if started_only then
                    if negb (is_started tk) then None else task
                  else task
              | None => None
              end in
  Ok task.

Fixpoint tasks_loop (ds : datastore) (tags : option (list Tag))
         (status : list string) (notag_only started_only is_root : bool)
         (tids : list tid) (l_tasks : list tid) : result (list tid) :=
  match tids with
  | [] => Ok l_tasks
  | t :: rest =>
      task <- select_task ds tags status notag_only started_only is_root t ;;
      tasks_loop ds tags status notag_only started_only is_root rest
        (match task with
         | Some _ => l_tasks ++ [t]
         | None => l_tasks
         end)
  end.

Definition get_tasks_list (ds : datastore) (tags : option (list Tag))
           (status : list string) (notag_only started_only is_root : bool)
  : result (list tid) :=
  tasks_loop ds tags status notag_only started_only is_root (all_tasks ds) [].

(** ** get_active_tasks_list *)

(** Python's [l.remove(x)]: drops the first element equal to [x]. *)
Fixpoint list_remove (x : Tag) (l : list Tag) : list Tag :=
  match l with
  | [] => []
  | y :: l' => if Tag_eq_dec x y then l' else y :: list_remove x l'
  end.

(** Lines 167-171: the list [nonwork_tag] is iterated over while elements
    are removed from it.  Python's list iterator keeps an index [i] into the
    live list and stops when [i] reaches its current length; [fuel] bounds
    the number of iterations. *)
Fixpoint nonwork_loop (fuel : nat) (tags : option (list Tag))
         (nonwork_tag : list Tag) (i : nat) : list Tag :=
  match fuel with
  | O => nonwork_tag
  | S fuel' =>
      match nth_error nonwork_tag i with
      | None => nonwork_tag
      | Some nwtag =>
          if truthy tags && tag_in nwtag (tag_list tags)
          then nonwork_loop fuel' tags (list_remove nwtag nonwork_tag) (S i)
          else nonwork_loop fuel' tags nonwork_tag (S i)
      end
  end.

(** The list of tags to skip, as line 172 finds it.  The list never grows,
    so its initial length is fuel enough ([nonwork_loop_fuel]). *)
Definition nonwork_tags (ds : datastore) (tags : option (list Tag)) : list Tag :=
  let nonwork_tag := get_all_tags (get_tagstore ds) (Some "nonworkview") "True" in
  nonwork_loop (List.length nonwork_tag) tags nonwork_tag 0.

(** Lines 178-184, the body of the loop over [temp_tasks]. *)
Definition workable_step (ds : datastore) (nonwork_tag : list Tag)
           (l_tasks : list tid) (t : tid) : list tid :=
  match get_task ds t with
  | Some tk =>
      if is_workable tk then
        if Nat.eqb (List.length nonwork_tag) 0 then l_tasks ++ [t]
        else if negb (has_tags tk nonwork_tag false) then l_tasks ++ [t]
        else l_tasks
      else l_tasks
  | None => l_tasks
  end.

(** The [else] branch (lines 187-193): the filter on status Active, copied
    element by element. *)
Definition active_tasks_flat (ds : datastore) (tags : option (list Tag))
           (notag_only started_only is_root : bool) : result (list tid) :=
  let active := ["Active"] in
  temp_tasks <- get_tasks_list ds tags active notag_only started_only is_root ;;
  Ok (fold_left (fun l_tasks t => l_tasks ++ [t]) temp_tasks []).

(** The method calls itself once, with [workable=False]; the inner call is
    the [else] branch. *)
Definition get_active_tasks_list (ds : datastore) (tags : option (list Tag))
           (notag_only started_only is_root workable : bool)
  : result (list tid) :=
  if workable then
    let nonwork_tag := nonwork_tags ds tags in
    temp_tasks <- active_tasks_flat ds tags notag_only true false ;;
    Ok (fold_left (workable_step ds nonwork_tag) temp_tasks [])
  else active_tasks_flat ds tags notag_only started_only is_root.

(** ** get_closed_tasks_list, get_notes_list *)

Definition get_closed_tasks_list (ds : datastore) (tags : option (list Tag))
           (notag_only started_only is_root : bool) : result (list tid) :=
  let closed := ["Done"; "Dismiss"; "Deleted"] in
  get_tasks_list ds tags closed notag_only started_only is_root.

Definition get_notes_list (ds : datastore) (tags : option (list Tag))
           (notag_only : bool) : result (list tid) :=
  let note := ["Note"] in
  get_tasks_list ds tags note notag_only false false.

(** ** get_used_tags *)

(** Lines 255-257: append the tags of one task that are not yet in [l]. *)
Definition add_tags (l : list Tag) (tags : list Tag) : list Tag :=
  fold_left (fun l tag => if negb (tag_in tag l) then l ++ [tag] else l) tags l.

Definition get_used_tags (ds : datastore) : list Tag :=
  fold_left (fun l t => match get_task ds t with
                        | Some tk => add_tags l (get_tags tk)
                        | None => l
                        end) (all_tasks ds) [].

(** ** Reference definitions, in the words of the specification *)

(** The tags attached to resolvable tasks, in the order of the store's
    iteration. *)
Definition tag_stream (ds : datastore) : list Tag :=
  flat_map (fun t => match get_task ds t with
                     | Some tk => get_tags tk
                     | None => []
                     end) (all_tasks ds).

(** De-duplication keeping the first occurrence of every tag: what
    "de-duplicated, first-seen order preserved" asks for.  [seen] holds the
    tags already met. *)
Fixpoint first_seen (seen : list Tag) (stream : list Tag) : list Tag :=
  match stream with
  | [] => []
  | x :: s => if tag_in x seen then first_seen seen s
              else x :: first_seen (x :: seen) s
  end.

(** The filters of [get_tasks_list] other than the one on parents. *)
Definition passes_filters (status : list string) (notag_only started_only : bool)
           (tk : Task) : Prop :=
  is_loaded tk = true /\ In (get_status tk) status /\
  (notag_only = true -> get_tags tk = []) /\
  (started_only = true -> is_started tk = true).

(** The test of lines 180-184 on one candidate. *)
Definition workable_keep (ds : datastore) (nonwork_tag : list Tag) (t : tid) : bool :=
  match get_task ds t with
  | Some tk =>
      is_workable tk &&
      (match nonwork_tag with
       | [] => true
       | _ :: _ => negb (existsb (fun tag => tag_in tag (get_tags tk)) nonwork_tag)
       end)
  | None => false
  end.

(** The decision of [get_tasks_list] on one identifier. *)
Definition accepted (ds : datastore) (tags : option (list Tag))
           (status : list string) (notag_only started_only is_root : bool)
           (t : tid) : bool :=
  match select_task ds tags status notag_only started_only is_root t with
  | Ok (Some _) => true
  | _ => false
  end.

(** The condition under which one identifier is kept, for every mode. *)
Definition kept (ds : datastore) (tags : option (list Tag))
           (status : list string) (notag_only started_only is_root : bool)
           (t : tid) : Prop :=
  exists tk,
    get_task ds t = Some tk /\
    passes_filters status notag_only started_only tk /\
    (truthy tags = true ->
     has_tags tk (tag_list tags) false = true /\
     (is_root = true -> has_parents ds tk tags = false)) /\
    (truthy tags = false -> is_root = true ->
     forall p, In p (get_parents tk) ->
               exists pp, get_task ds p = Some pp /\ get_status pp = "Note").

(** The started test of one identifier (lines 141-143). *)
Definition task_is_started (ds : datastore) (t : tid) : bool :=
  match get_task ds t with
  | Some tk => is_started tk
  | None => false
  end.

(** The no-tag test of one identifier (lines 137-139). *)
Definition task_has_no_tag (ds : datastore) (t : tid) : bool :=
  match get_task ds t with
  | Some tk => has_tags tk [] true
  | None => false
  end.

(** The test of line 170 on one tag of [nonwork_tag]. *)
Definition requested (tags : option (list Tag)) (x : Tag) : bool :=
  truthy tags && tag_in x (tag_list tags).

(** No two neighbours of the list are both requested. *)
Fixpoint requested_apart (tags : option (list Tag)) (l : list Tag) : Prop :=
  match l with
  | [] => True
  | x :: rest =>
      match rest with
      | [] => True
      | y :: _ => requested tags x = true -> requested tags y = false
      end /\ requested_apart tags rest
  end.

(** ** Example stores *)

Definition plain_task (status : string) (tags : list Tag) (parents : list tid)
  : Task :=
  mkTask status tags parents true true true.

Definition store_of (ids : list tid) (tasks : list (tid * Task)) (tags : list Tag)
  : datastore :=
  mkDatastore ids
    (fun t => option_map snd (find (fun kv => String.eqb (fst kv) t) tasks))
    (mkTagstore tags).

(** A task whose only parent is an identifier that resolves to nothing. *)
Definition orphan_store : datastore :=
  store_of ["1"] [("1", plain_task "Active" [] ["2"])] [].

(** Two tags hidden from the work view, and a workable task carrying the
    second one. *)
Definition tag_someday : Tag := mkTag "someday" [("nonworkview", "True")].
Definition tag_waiting : Tag := mkTag "waiting" [("nonworkview", "True")].

Definition nonwork_store : datastore :=
  store_of ["1"] [("1", plain_task "Active" [tag_waiting] [])]
    [tag_someday; tag_waiting].

(** A workable task under an active parent. *)
Definition subtask_store : datastore :=
  store_of ["1"; "2"]
    [("1", plain_task "Active" [] ["2"]); ("2", plain_task "Active" [] [])] [].

(** The store of the first scenario: an active task, an active task that is
    not started yet, a done task and a note. *)
Definition tag_urgent : Tag := mkTag "urgent" [].

Definition scenario_store : datastore :=
  store_of ["A"; "B"; "C"; "D"]
    [("A", plain_task "Active" [] []);
     ("B", mkTask "Active" [tag_urgent] [] true false true);
     ("C", plain_task "Done" [] []);
     ("D", plain_task "Note" [] [])] [tag_urgent].

(** An active task still being loaded, next to a loaded one. *)
Definition loading_store : datastore :=
  store_of ["1"; "2"]
    [("1", mkTask "Active" [] [] false true true);
     ("2", plain_task "Active" [] [])] [].

(** The third scenario: F is a child of the note G. *)
Definition note_child_store : datastore :=
  store_of ["F"; "G"]
    [("F", plain_task "Active" [] ["G"]); ("G", plain_task "Note" [] [])] [].

(** * Properties *)

(** ** Membership tests *)

Lemma tag_in_iff (x : Tag) (l : list Tag) : tag_in x l = true <-> In x l.
Proof.
  unfold tag_in. destruct (in_dec Tag_eq_dec x l); split; intros H;
    try assumption; try reflexivity; try discriminate; contradiction.
Qed.

Lemma tag_in_false_iff (x : Tag) (l : list Tag) : tag_in x l = false <-> ~ In x l.
Proof.
  rewrite <- tag_in_iff. destruct (tag_in x l); split; intros H;
    try reflexivity; try discriminate; try (intros E; discriminate).
  exfalso. apply H. reflexivity.
Qed.

Lemma status_in_iff (x : string) (l : list string) : status_in x l = true <-> In x l.
Proof.
  unfold status_in. destruct (in_dec string_dec x l); split; intros H;
    try assumption; try reflexivity; try discriminate; contradiction.
Qed.

Lemma has_tags_iff (tk : Task) (l : list Tag) :
  has_tags tk l false = true <-> exists tag, In tag l /\ In tag (get_tags tk).
Proof.
  unfold has_tags. rewrite existsb_exists.
  split; intros (tag & Hl & Ht); exists tag; split; try assumption;
    apply tag_in_iff; assumption.
Qed.

Lemma has_no_tags_iff (tk : Task) (l : list Tag) :
  has_tags tk l true = true <-> get_tags tk = [].
Proof.
  unfold has_tags. destruct (get_tags tk); split; intros H;
    try reflexivity; discriminate.
Qed.

(** ** The loop over the parents *)

Lemma parents_loop_none (ds : datastore) (ps : list tid) (r : option Task) :
  parents_loop ds ps None = Ok r -> r = None.
Proof.
  induction ps as [|p ps IH]; simpl; intros H.
  - inversion H. reflexivity.
  - destruct (get_task ds p) as [pp|]; [|discriminate].
    destruct (String.eqb (get_status pp) "Note"); apply IH; assumption.
Qed.

Lemma parents_loop_resolves (ds : datastore) (ps : list tid) (task r : option Task) :
  parents_loop ds ps task = Ok r ->
  forall p, In p ps -> exists pp, get_task ds p = Some pp.
Proof.
  revert task. induction ps as [|p ps IH]; simpl; intros task H q Hq.
  - contradiction.
  - destruct (get_task ds p) as [pp|] eqn:E; [|discriminate].
    destruct Hq as [<-|Hq]; [exists pp; assumption|].
    eapply IH; eassumption.
Qed.

Lemma parents_loop_some (ds : datastore) (ps : list tid) (task : option Task)
      (tk : Task) :
  parents_loop ds ps task = Ok (Some tk) ->
  task = Some tk /\
  forall p, In p ps -> exists pp, get_task ds p = Some pp /\ get_status pp = "Note".
Proof.
  revert task. induction ps as [|p ps IH]; simpl; intros task H.
  - inversion H. split; [reflexivity|]. intros p [].
  - destruct (get_task ds p) as [pp|] eqn:E; [|discriminate].
    destruct (String.eqb (get_status pp) "Note") eqn:En.
    + destruct (IH _ H) as [-> Hall]. split; [reflexivity|].
      intros q [<-|Hq]; [|apply Hall; assumption].
      exists pp. split; [assumption|]. apply String.eqb_eq. assumption.
    + apply parents_loop_none in H. discriminate.
Qed.

Lemma parents_loop_notes (ds : datastore) (ps : list tid) (task : option Task) :
  (forall p, In p ps -> exists pp, get_task ds p = Some pp /\ get_status pp = "Note") ->
  parents_loop ds ps task = Ok task.
Proof.
  induction ps as [|p ps IH]; simpl; intros Hall.
  - reflexivity.
  - destruct (Hall p (or_introl eq_refl)) as (pp & -> & Hs).
    rewrite Hs. simpl. apply IH. intros q Hq. apply Hall. right. assumption.
Qed.

(** ** The decision on one identifier *)

Arguments has_tags : simpl never.
Arguments has_parents : simpl never.
Arguments parents_loop : simpl nomatch.

Lemma select_task_some (ds : datastore) (tags : option (list Tag))
      (status : list string) (notag_only started_only is_root : bool)
      (t : tid) (tk : Task) :
  select_task ds tags status notag_only started_only is_root t = Ok (Some tk) ->
  get_task ds t = Some tk /\
  passes_filters status notag_only started_only tk /\
  (truthy tags = true ->
   has_tags tk (tag_list tags) false = true /\
   (is_root = true -> has_parents ds tk tags = false)) /\
  (truthy tags = false -> is_root = true ->
   forall p, In p (get_parents tk) ->
             exists pp, get_task ds p = Some pp /\ get_status pp = "Note").
Proof.
  unfold select_task, passes_filters.
  destruct (get_task ds t) as [tk0|]; [|simpl; discriminate].
  destruct (is_loaded tk0) eqn:Hl; simpl; [|discriminate].
  destruct (status_in (get_status tk0) status) eqn:Hs; simpl; [|discriminate].
  apply status_in_iff in Hs.
  set (tail := fun task : option Task => _).
  assert (Htail : forall r, tail r = Ok (Some tk) ->
                            r = Some tk /\
                            (notag_only = true -> get_tags tk = []) /\
                            (started_only = true -> is_started tk = true)).
  { subst tail. intros [r|]; simpl; [|discriminate].
    destruct notag_only; simpl.
    - destruct (has_tags r [] true) eqn:Hg; simpl; [|discriminate].
      apply has_no_tags_iff in Hg.
      destruct started_only.
      + destruct (is_started r) eqn:Hst; simpl; [|discriminate].
        intros H; inversion H; subst. auto.
      + intros H; inversion H; subst. split; [reflexivity|].
        split; [auto|discriminate].
    - destruct started_only.
      + destruct (is_started r) eqn:Hst; simpl; [|discriminate].
        intros H; inversion H; subst. split; [reflexivity|].
        split; [discriminate|auto].
      + intros H; inversion H; subst. split; [reflexivity|].
        split; discriminate. }
  destruct (truthy tags) eqn:Ht.
  - destruct (has_tags tk0 (tag_list tags) false) eqn:Hh; simpl;
      [|intros H; apply Htail in H; destruct H; discriminate].
    destruct is_root; simpl.
    + destruct (has_parents ds tk0 tags) eqn:Hp; simpl; intros H;
        apply Htail in H; destruct H as (E & Hn & Hst); inversion E; subst.
      repeat split; auto; discriminate.
    + intros H; apply Htail in H; destruct H as (E & Hn & Hst);
        inversion E; subst.
      repeat split; auto; discriminate.
  - destruct is_root.
    + destruct (has_parents ds tk0 None) eqn:Hp.
      * destruct (parents_loop ds (get_parents tk0) (Some tk0)) as [r|e] eqn:Hpl;
          simpl; [|discriminate].
        intros H; apply Htail in H; destruct H as (-> & Hn & Hst).
        apply parents_loop_some in Hpl. destruct Hpl as (E & Hall).
        inversion E; subst.
        repeat split; auto; discriminate.
      * simpl. intros H; apply Htail in H; destruct H as (E & Hn & Hst).
        inversion E; subst.
        repeat split; auto; try discriminate.
        intros _ _ p Hp'. unfold has_parents in Hp. simpl in Hp.
        destruct (get_parents tk); [contradiction|discriminate].
    + simpl. intros H; apply Htail in H; destruct H as (E & Hn & Hst).
      inversion E; subst.
      repeat split; auto; discriminate.
Qed.

Lemma select_task_tail (status : list string) (notag_only started_only : bool)
      (tk : Task) :
  passes_filters status notag_only started_only tk ->
  (let task := match Some tk with
               | Some tk' =>
                   if notag_only then
                     if negb (has_tags tk' [] notag_only) then None else Some tk
                   else Some tk
               | None => None
               end in
   let task := match task with
               | Some tk' =>
                   if started_only then
                     if negb (is_started tk') then None else task
                   else task
               | None => None
               end in
   Ok task) = Ok (Some tk).
Proof.
  intros (_ & _ & Hn & Hst). simpl.
  destruct notag_only.
  - rewrite (proj2 (has_no_tags_iff tk []) (Hn eq_refl)). simpl.
    destruct started_only; [rewrite (Hst eq_refl)|]; reflexivity.
  - destruct started_only; [rewrite (Hst eq_refl)|]; reflexivity.
Qed.

Lemma select_task_flat_accept (ds : datastore) (tags : option (list Tag))
      (status : list string) (notag_only started_only : bool)
      (t : tid) (tk : Task) :
  get_task ds t = Some tk ->
  passes_filters status notag_only started_only tk ->
  (truthy tags = true -> has_tags tk (tag_list tags) false = true) ->
  select_task ds tags status notag_only started_only false t = Ok (Some tk).
Proof.
  intros Hg Hp Ht. unfold select_task. rewrite Hg.
  destruct Hp as (Hl & Hs & Hrest). rewrite Hl. simpl.
  rewrite (proj2 (status_in_iff _ _) Hs). simpl.
  destruct (truthy tags).
  - rewrite (Ht eq_refl). simpl.
    apply (select_task_tail status); repeat split; tauto.
  - simpl. apply (select_task_tail status); repeat split; tauto.
Qed.

Lemma select_task_root_accept (ds : datastore) (tags : option (list Tag))
      (status : list string) (notag_only started_only : bool)
      (t : tid) (tk : Task) :
  truthy tags = false ->
  get_task ds t = Some tk ->
  passes_filters status notag_only started_only tk ->
  (forall p, In p (get_parents tk) ->
             exists pp, get_task ds p = Some pp /\ get_status pp = "Note") ->
  select_task ds tags status notag_only started_only true t = Ok (Some tk).
Proof.
  intros Ht Hg Hp Hall. unfold select_task. rewrite Hg, Ht.
  destruct Hp as (Hl & Hs & Hrest). rewrite Hl. simpl.
  rewrite (proj2 (status_in_iff _ _) Hs). simpl.
  destruct (has_parents ds tk None).
  - rewrite (parents_loop_notes ds (get_parents tk) (Some tk) Hall). simpl.
    apply (select_task_tail status); repeat split; tauto.
  - simpl. apply (select_task_tail status); repeat split; tauto.
Qed.

Lemma select_task_no_raise (ds : datastore) (tags : option (list Tag))
      (status : list string) (notag_only started_only is_root : bool) (t : tid) :
  truthy tags = true \/ is_root = false ->
  exists r, select_task ds tags status notag_only started_only is_root t = Ok r.
Proof.
  intros H. unfold select_task.
  destruct (get_task ds t) as [tk|]; [|simpl; eauto].
  destruct (negb (is_loaded tk)); [simpl; eauto|].
  destruct (negb (status_in (get_status tk) status)); [simpl; eauto|].
  destruct (truthy tags).
  - destruct (negb (has_tags tk (tag_list tags) false)); [simpl; eauto|].
    destruct (is_root && has_parents ds tk tags); simpl; eauto.
  - destruct H as [H| ->]; [discriminate|]. simpl; eauto.
Qed.

Lemma select_task_empty_status (ds : datastore) (tags : option (list Tag))
      (notag_only started_only is_root : bool) (t : tid) :
  select_task ds tags [] notag_only started_only is_root t = Ok None.
Proof.
  unfold select_task.
  destruct (get_task ds t) as [tk|]; [|reflexivity].
  destruct (negb (is_loaded tk)); reflexivity.
Qed.

Lemma select_task_tags_notag (ds : datastore) (tags : option (list Tag))
      (status : list string) (started_only is_root : bool) (t : tid) :
  truthy tags = true ->
  select_task ds tags status true started_only is_root t = Ok None.
Proof.
  intros Ht.
  destruct (@select_task_no_raise ds tags status true started_only is_root t
              (or_introl Ht)) as ([tk|] & Hr); [|assumption].
  exfalso. apply select_task_some in Hr.
  destruct Hr as (_ & (_ & _ & Hn & _) & Hh & _).
  destruct (Hh Ht) as (Hh' & _). apply has_tags_iff in Hh'.
  destruct Hh' as (tag & _ & Hin). rewrite (Hn eq_refl) in Hin. contradiction.
Qed.

(** ** The loop over the identifiers *)

Section TasksLoop.

Variable ds : datastore.
Variable tags : option (list Tag).
Variable status : list string.
Variables notag_only started_only is_root : bool.

Let select := select_task ds tags status notag_only started_only is_root.
Let keep := accepted ds tags status notag_only started_only is_root.
Let loop := tasks_loop ds tags status notag_only started_only is_root.

Lemma tasks_loop_ok (tids l_tasks l : list tid) :
  loop tids l_tasks = Ok l ->
  l = l_tasks ++ filter keep tids /\
  forall t, In t tids -> exists r, select t = Ok r.
Proof.
  subst loop keep select. revert l_tasks.
  induction tids as [|t rest IH]; simpl; intros l_tasks H.
  - inversion H. rewrite app_nil_r. split; [reflexivity|]. intros t [].
  - unfold accepted at 1.
    destruct (select_task ds tags status notag_only started_only is_root t)
      as [r|e] eqn:E; simpl in H; [|discriminate].
    destruct (IH _ H) as (-> & Hall). split.
    + destruct r; [rewrite <- app_assoc|]; reflexivity.
    + intros q [<-|Hq]; [exists r; assumption|apply Hall; assumption].
Qed.

Lemma tasks_loop_total (tids l_tasks : list tid) :
  (forall t, In t tids -> exists r, select t = Ok r) ->
  loop tids l_tasks = Ok (l_tasks ++ filter keep tids).
Proof.
  subst loop keep select. revert l_tasks.
  induction tids as [|t rest IH]; simpl; intros l_tasks Hall.
  - rewrite app_nil_r. reflexivity.
  - unfold accepted at 1.
    destruct (Hall t (or_introl eq_refl)) as (r & ->). simpl.
    rewrite IH by (intros q Hq; apply Hall; right; assumption).
    destruct r; [rewrite <- app_assoc|]; reflexivity.
Qed.

Lemma get_tasks_list_ok (l : list tid) :
  get_tasks_list ds tags status notag_only started_only is_root = Ok l ->
  l = filter keep (all_tasks ds).
Proof.
  unfold get_tasks_list. intros H. apply tasks_loop_ok in H.
  destruct H as (-> & _). reflexivity.
Qed.

Lemma get_tasks_list_total :
  truthy tags = true \/ is_root = false ->
  get_tasks_list ds tags status notag_only started_only is_root
  = Ok (filter keep (all_tasks ds)).
Proof.
  intros H. unfold get_tasks_list.
  apply (tasks_loop_total (all_tasks ds) []).
  intros t _. apply select_task_no_raise. assumption.
Qed.

Lemma get_tasks_list_in (l : list tid) (t : tid) :
  get_tasks_list ds tags status notag_only started_only is_root = Ok l ->
  In t l ->
  In t (all_tasks ds) /\ exists tk, select t = Ok (Some tk).
Proof.
  intros H Hin. rewrite (get_tasks_list_ok l H) in Hin.
  apply filter_In in Hin. destruct Hin as (Ha & Hk). split; [assumption|].
  subst keep select. unfold accepted in Hk.
  destruct (select_task ds tags status notag_only started_only is_root t)
    as [[tk|]|]; try discriminate.
  exists tk. reflexivity.
Qed.

Lemma get_tasks_list_accepts (l : list tid) (t : tid) (tk : Task) :
  get_tasks_list ds tags status notag_only started_only is_root = Ok l ->
  In t (all_tasks ds) ->
  select t = Ok (Some tk) ->
  In t l.
Proof.
  intros H Ha Hs. rewrite (get_tasks_list_ok l H).
  apply filter_In. split; [assumption|].
  subst keep select. unfold accepted. rewrite Hs. reflexivity.
Qed.

End TasksLoop.

(** A returned identifier resolves to a loaded task whose status is one of
    the requested ones. *)
Lemma get_tasks_list_sound (ds : datastore) (tags : option (list Tag))
      (status : list string) (notag_only started_only is_root : bool)
      (l : list tid) (t : tid) :
  get_tasks_list ds tags status notag_only started_only is_root = Ok l ->
  In t l ->
  exists tk, get_task ds t = Some tk /\ is_loaded tk = true /\
             In (get_status tk) status.
Proof.
  intros H Hin. destruct (get_tasks_list_in _ _ _ _ _ _ _ _ H Hin) as (_ & tk & Hs).
  apply select_task_some in Hs. destruct Hs as (Hg & (Hl & Hst & _) & _).
  exists tk. auto.
Qed.

(** ** The active selector *)

Lemma copy_loop (temp_tasks l_tasks : list tid) :
  fold_left (fun l t => l ++ [t]) temp_tasks l_tasks = l_tasks ++ temp_tasks.
Proof.
  revert l_tasks. induction temp_tasks as [|t rest IH]; simpl; intros l_tasks.
  - rewrite app_nil_r. reflexivity.
  - rewrite IH, <- app_assoc. reflexivity.
Qed.

Lemma active_tasks_flat_eq (ds : datastore) (tags : option (list Tag))
      (notag_only started_only is_root : bool) :
  active_tasks_flat ds tags notag_only started_only is_root
  = get_tasks_list ds tags ["Active"] notag_only started_only is_root.
Proof.
  unfold active_tasks_flat.
  destruct (get_tasks_list ds tags ["Active"] notag_only started_only is_root);
    simpl; [|reflexivity].
  rewrite copy_loop. reflexivity.
Qed.

Lemma workable_step_keep (ds : datastore) (nonwork_tag : list Tag)
      (l_tasks : list tid) (t : tid) :
  workable_step ds nonwork_tag l_tasks t
  = if workable_keep ds nonwork_tag t then l_tasks ++ [t] else l_tasks.
Proof.
  unfold workable_step, workable_keep, has_tags.
  destruct (get_task ds t) as [tk|]; [|reflexivity].
  destruct (is_workable tk); [|reflexivity].
  destruct nonwork_tag as [|x nw]; [reflexivity|].
  cbn [List.length Nat.eqb andb].
  destruct (negb (existsb (fun tag => tag_in tag (get_tags tk)) (x :: nw)));
    reflexivity.
Qed.

Lemma workable_loop (ds : datastore) (nonwork_tag : list Tag)
      (temp_tasks l_tasks : list tid) :
  fold_left (workable_step ds nonwork_tag) temp_tasks l_tasks
  = l_tasks ++ filter (workable_keep ds nonwork_tag) temp_tasks.
Proof.
  revert l_tasks. induction temp_tasks as [|t rest IH]; simpl; intros l_tasks.
  - rewrite app_nil_r. reflexivity.
  - rewrite IH, workable_step_keep.
    destruct (workable_keep ds nonwork_tag t); [rewrite <- app_assoc|];
      reflexivity.
Qed.

(** The loop that trims [nonwork_tag] ends by running off the end of the
    list, not by running out of fuel: more fuel changes nothing. *)
Lemma list_remove_length (x : Tag) (l : list Tag) :
  List.length (list_remove x l) <= List.length l.
Proof.
  induction l as [|y l IH]; simpl; [lia|].
  destruct (Tag_eq_dec x y); simpl; lia.
Qed.

Lemma nonwork_loop_fuel (tags : option (list Tag)) (fuel : nat) :
  forall (nonwork_tag : list Tag) (i : nat),
    List.length nonwork_tag <= i + fuel ->
    nonwork_loop (S fuel) tags nonwork_tag i = nonwork_loop fuel tags nonwork_tag i.
Proof.
  induction fuel as [|fuel IH]; intros nonwork_tag i Hlen.
  - simpl. destruct (nth_error nonwork_tag i) eqn:E; [|reflexivity].
    assert (i < List.length nonwork_tag)
      by (apply nth_error_Some; rewrite E; discriminate).
    lia.
  - cbn [nonwork_loop]. destruct (nth_error nonwork_tag i) as [nwtag|]; [|reflexivity].
    destruct (truthy tags && tag_in nwtag (tag_list tags)).
    + apply IH. pose proof (list_remove_length nwtag nonwork_tag). lia.
    + apply IH. lia.
Qed.

Lemma nonwork_loop_enough (tags : option (list Tag)) (nonwork_tag : list Tag)
      (extra : nat) :
  nonwork_loop (List.length nonwork_tag + extra) tags nonwork_tag 0
  = nonwork_loop (List.length nonwork_tag) tags nonwork_tag 0.
Proof.
  induction extra as [|extra IH].
  - rewrite Nat.add_0_r. reflexivity.
  - rewrite Nat.add_succ_r, nonwork_loop_fuel by lia. assumption.
Qed.

(** The workable branch never raises, and filters the flat active list. *)
Lemma get_active_tasks_list_workable (ds : datastore) (tags : option (list Tag))
      (notag_only started_only is_root : bool) :
  get_active_tasks_list ds tags notag_only started_only is_root true
  = Ok (filter (workable_keep ds (nonwork_tags ds tags))
          (filter (accepted ds tags ["Active"] notag_only true false)
             (all_tasks ds))).
Proof.
  unfold get_active_tasks_list.
  rewrite active_tasks_flat_eq, get_tasks_list_total by (right; reflexivity).
  simpl. rewrite workable_loop. reflexivity.
Qed.

Lemma filter_none {A : Type} (f : A -> bool) (l : list A) :
  (forall a, f a = false) -> filter f l = [].
Proof.
  intros H. induction l as [|a l IH]; simpl; [reflexivity|].
  rewrite H. assumption.
Qed.

Lemma workable_keep_iff (ds : datastore) (nonwork_tag : list Tag) (t : tid) :
  workable_keep ds nonwork_tag t = true <->
  exists tk, get_task ds t = Some tk /\ is_workable tk = true /\
             (nonwork_tag <> [] ->
              forall tag, In tag nonwork_tag -> ~ In tag (get_tags tk)).
Proof.
  unfold workable_keep. destruct (get_task ds t) as [tk|]; split.
  - intros H. apply andb_true_iff in H. destruct H as (Hw & Hn).
    exists tk. repeat split; try assumption.
    intros _ tag Hin Hc. destruct nonwork_tag as [|x nw]; [contradiction|].
    apply negb_true_iff in Hn.
    assert (E : existsb (fun tag => tag_in tag (get_tags tk)) (x :: nw) = true).
    { apply existsb_exists. exists tag. split; [assumption|].
      apply tag_in_iff. assumption. }
    rewrite E in Hn. discriminate.
  - intros (tk' & E & Hw & Hn). inversion E; subst tk'. rewrite Hw. simpl.
    destruct nonwork_tag as [|x nw]; [reflexivity|].
    apply negb_true_iff.
    destruct (existsb (fun tag => tag_in tag (get_tags tk)) (x :: nw)) eqn:Ex;
      [|reflexivity].
    apply existsb_exists in Ex. destruct Ex as (tag & Hin & Hc).
    apply tag_in_iff in Hc. exfalso.
    apply (Hn ltac:(discriminate) tag Hin Hc).
  - discriminate.
  - intros (tk & E & _). discriminate.
Qed.

(** ** The claims *)

(** C1 (the code departs from the claim): with no tag constraint and
    [is_root=True], a candidate whose parent identifier resolves to no task
    makes [get_tasks_list] raise [AttributeError] at [pp.get_status()]
    instead of leaving the parent out silently. *)
Theorem get_tasks_list_unresolved_parent_raises :
  get_task orphan_store "2" = None /\
  get_tasks_list orphan_store None ["Active"] false true true
  = Raise AttributeError /\
  get_active_tasks_list orphan_store (Some []) false true true false
  = Raise AttributeError.
Proof. repeat split; reflexivity. Qed.

(** C2 (the code departs from the claim): when two neighbouring nonwork
    tags are both in the tag constraint, removing the first one while the
    list is iterated makes the loop step over the second one, which stays in
    the exclusion list; the task that carries it is then left out of the
    workable list although its tag was asked for. *)
Theorem nonwork_tag_skipped_while_removing :
  get_all_tags (get_tagstore nonwork_store) (Some "nonworkview") "True"
  = [tag_someday; tag_waiting] /\
  nonwork_tags nonwork_store (Some [tag_someday; tag_waiting]) = [tag_waiting] /\
  get_active_tasks_list nonwork_store (Some [tag_someday; tag_waiting])
    false true false false = Ok ["1"] /\
  workable_keep nonwork_store [] "1" = true /\
  get_active_tasks_list nonwork_store (Some [tag_someday; tag_waiting])
    false true false true = Ok [].
Proof. repeat split; reflexivity. Qed.

(** C8: an empty status set gives the empty list, never an error. *)
Theorem get_tasks_list_empty_status (ds : datastore) (tags : option (list Tag))
        (notag_only started_only is_root : bool) :
  get_tasks_list ds tags [] notag_only started_only is_root = Ok [].
Proof.
  unfold get_tasks_list.
  rewrite tasks_loop_total
    by (intros t _; exists None; apply select_task_empty_status).
  rewrite filter_none; [reflexivity|].
  intros t. unfold accepted. rewrite select_task_empty_status. reflexivity.
Qed.

(** C10: a tag constraint together with [notag_only=True] selects nothing:
    a task with one of the tags asked for is not a task without tags. *)
Theorem get_tasks_list_tags_and_notag_only (ds : datastore)
        (tags : option (list Tag)) (status : list string)
        (started_only is_root : bool) :
  truthy tags = true ->
  get_tasks_list ds tags status true started_only is_root = Ok [].
Proof.
  intros Ht. rewrite get_tasks_list_total by (left; assumption).
  rewrite filter_none; [reflexivity|].
  intros t. unfold accepted. rewrite select_task_tags_notag by assumption.
  reflexivity.
Qed.

Lemma get_tasks_list_tags_and_notag_only_witness :
  truthy (Some [tag_waiting]) = true /\
  get_tasks_list nonwork_store (Some [tag_waiting]) ["Active"] true true false
  = Ok [].
Proof.
  split; [reflexivity|].
  apply (get_tasks_list_tags_and_notag_only nonwork_store (Some [tag_waiting])
           ["Active"] true false).
  reflexivity.
Defined.

(** C4, as stated, fails: with [is_root=True] the workable list still holds
    the subtask, which the root-only flat list leaves out. *)
Lemma workable_not_included_when_root_only :
  ~ (forall (ds : datastore) (tags : option (list Tag))
            (notag_only started_only is_root : bool) (lw lf : list tid) (t : tid),
        get_active_tasks_list ds tags notag_only started_only is_root true = Ok lw ->
        get_active_tasks_list ds tags notag_only started_only is_root false = Ok lf ->
        In t lw -> In t lf).
Proof.
  intros H.
  assert (Hin : In "1" ["2"]).
  { apply (H subtask_store None false true true ["1"; "2"] ["2"] "1");
      [reflexivity|reflexivity|left; reflexivity]. }
  destruct Hin as [E|[]]. discriminate.
Qed.

(** C4, amended: for identical [tags], [notag_only] and [started_only] and
    with [is_root=False], both calls return, and every identifier of the
    workable list is in the non-workable list. *)
Theorem workable_included_when_flat (ds : datastore) (tags : option (list Tag))
        (notag_only started_only : bool) :
  exists lw lf,
    get_active_tasks_list ds tags notag_only started_only false true = Ok lw /\
    get_active_tasks_list ds tags notag_only started_only false false = Ok lf /\
    forall t, In t lw -> In t lf.
Proof.
  eexists. eexists. split; [apply get_active_tasks_list_workable|].
  split.
  - unfold get_active_tasks_list. rewrite active_tasks_flat_eq.
    apply get_tasks_list_total. right. reflexivity.
  - intros t Hin. apply filter_In in Hin. destruct Hin as (Hin & _).
    apply filter_In in Hin. destruct Hin as (Hall & Hacc).
    apply filter_In. split; [assumption|].
    unfold accepted in *.
    destruct (select_task ds tags ["Active"] notag_only true false t)
      as [[tk|]|] eqn:E; try discriminate.
    apply select_task_some in E.
    destruct E as (Hg & (Hl & Hs & Hn & Hst) & Ht & _).
    rewrite (select_task_flat_accept ds tags ["Active"] notag_only started_only
               t tk Hg); [reflexivity| |].
    + repeat split; try assumption. intros _. apply Hst. reflexivity.
    + intros Htr. apply Ht. assumption.
Qed.

(** An identifier of the active list, workable or not, resolves to a loaded
    task with status Active. *)
Lemma get_active_tasks_list_sound (ds : datastore) (tags : option (list Tag))
      (notag_only started_only is_root workable : bool) (l : list tid) (t : tid) :
  get_active_tasks_list ds tags notag_only started_only is_root workable = Ok l ->
  In t l ->
  exists tk, get_task ds t = Some tk /\ is_loaded tk = true /\
             get_status tk = "Active".
Proof.
  intros H Hin.
  assert (Hflat : exists s r l', get_tasks_list ds tags ["Active"] notag_only s r
                                 = Ok l' /\ In t l').
  { destruct workable.
    - rewrite get_active_tasks_list_workable in H. inversion H; subst l.
      apply filter_In in Hin. destruct Hin as (Hin & _).
      exists true, false. eexists. split; [|exact Hin].
      apply get_tasks_list_total. right. reflexivity.
    - unfold get_active_tasks_list in H. rewrite active_tasks_flat_eq in H.
      exists started_only, is_root, l. split; assumption. }
  destruct Hflat as (s & r & l' & Hl & Hin').
  destruct (get_tasks_list_sound _ _ _ _ _ _ _ _ Hl Hin') as (tk & Hg & Hld & Hs).
  exists tk. repeat split; try assumption.
  destruct Hs as [E|[]]. symmetry. assumption.
Qed.

(** C5: whatever the arguments of the three calls, no identifier is in two
    of the closed, active and note lists: the task it resolves to has one
    status, and the three status lists have no status in common. *)
Theorem closed_active_notes_disjoint (ds : datastore)
        (tags_c tags_a tags_n : option (list Tag))
        (notag_c started_c root_c : bool)
        (notag_a started_a root_a workable : bool)
        (notag_n : bool) (lc la ln : list tid) :
  get_closed_tasks_list ds tags_c notag_c started_c root_c = Ok lc ->
  get_active_tasks_list ds tags_a notag_a started_a root_a workable = Ok la ->
  get_notes_list ds tags_n notag_n = Ok ln ->
  forall t, ~ (In t lc /\ In t la) /\ ~ (In t lc /\ In t ln) /\
            ~ (In t la /\ In t ln).
Proof.
  intros Hc Ha Hn t.
  unfold get_closed_tasks_list in Hc. unfold get_notes_list in Hn.
  repeat split; intros (H1 & H2).
  - destruct (get_tasks_list_sound _ _ _ _ _ _ _ _ Hc H1) as (tk & Hg & _ & Hs).
    destruct (get_active_tasks_list_sound _ _ _ _ _ _ _ _ Ha H2)
      as (tk' & Hg' & _ & Hs').
    rewrite Hg in Hg'. inversion Hg'; subst tk'. rewrite Hs' in Hs.
    simpl in Hs. intuition discriminate.
  - destruct (get_tasks_list_sound _ _ _ _ _ _ _ _ Hc H1) as (tk & Hg & _ & Hs).
    destruct (get_tasks_list_sound _ _ _ _ _ _ _ _ Hn H2) as (tk' & Hg' & _ & Hs').
    rewrite Hg in Hg'. inversion Hg'; subst tk'.
    destruct Hs' as [E|[]]. rewrite <- E in Hs.
    simpl in Hs. intuition discriminate.
  - destruct (get_active_tasks_list_sound _ _ _ _ _ _ _ _ Ha H1)
      as (tk & Hg & _ & Hs).
    destruct (get_tasks_list_sound _ _ _ _ _ _ _ _ Hn H2) as (tk' & Hg' & _ & Hs').
    rewrite Hg in Hg'. inversion Hg'; subst tk'. rewrite Hs in Hs'.
    simpl in Hs'. intuition discriminate.
Qed.

Lemma closed_active_notes_disjoint_witness :
  get_closed_tasks_list scenario_store None false false false = Ok ["C"] /\
  get_active_tasks_list scenario_store None false true false false = Ok ["A"] /\
  get_notes_list scenario_store None false = Ok ["D"] /\
  forall t, ~ (In t ["C"] /\ In t ["A"]) /\ ~ (In t ["C"] /\ In t ["D"]) /\
            ~ (In t ["A"] /\ In t ["D"]).
Proof.
  split; [reflexivity|]. split; [reflexivity|]. split; [reflexivity|].
  apply (closed_active_notes_disjoint scenario_store None None None
           false false false false true false false false);
    reflexivity.
Defined.

(** C6: the identifier of a task that is not loaded is in the result of no
    query. *)
Theorem unloaded_task_never_returned (ds : datastore) (t : tid) (tk : Task) :
  get_task ds t = Some tk ->
  is_loaded tk = false ->
  (forall tags status notag_only started_only is_root l,
      get_tasks_list ds tags status notag_only started_only is_root = Ok l ->
      ~ In t l) /\
  (forall tags notag_only started_only is_root workable l,
      get_active_tasks_list ds tags notag_only started_only is_root workable = Ok l ->
      ~ In t l) /\
  (forall tags notag_only started_only is_root l,
      get_closed_tasks_list ds tags notag_only started_only is_root = Ok l ->
      ~ In t l) /\
  (forall tags notag_only l,
      get_notes_list ds tags notag_only = Ok l -> ~ In t l).
Proof.
  intros Hg Hl.
  assert (Hbase : forall tags status notag_only started_only is_root l,
             get_tasks_list ds tags status notag_only started_only is_root = Ok l ->
             ~ In t l).
  { intros tags status n s r l H Hin.
    destruct (get_tasks_list_sound _ _ _ _ _ _ _ _ H Hin) as (tk' & Hg' & Hl' & _).
    rewrite Hg in Hg'. inversion Hg'; subst tk'. rewrite Hl in Hl'. discriminate. }
  split; [exact Hbase|]. split; [|split].
  - intros tags n s r w l H Hin.
    destruct (get_active_tasks_list_sound _ _ _ _ _ _ _ _ H Hin)
      as (tk' & Hg' & Hl' & _).
    rewrite Hg in Hg'. inversion Hg'; subst tk'. rewrite Hl in Hl'. discriminate.
  - intros tags n s r l H. exact (Hbase _ _ _ _ _ _ H).
  - intros tags n l H. exact (Hbase _ _ _ _ _ _ H).
Qed.

Lemma unloaded_task_never_returned_witness :
  get_task loading_store "1" = Some (mkTask "Active" [] [] false true true) /\
  is_loaded (mkTask "Active" [] [] false true true) = false /\
  get_tasks_list loading_store None ["Active"] false true false = Ok ["2"] /\
  ~ In "1" ["2"].
Proof.
  split; [reflexivity|]. split; [reflexivity|]. split; [reflexivity|].
  apply (proj1 (unloaded_task_never_returned loading_store "1"
                  (mkTask "Active" [] [] false true true) eq_refl eq_refl)
           None ["Active"] false true false).
  reflexivity.
Defined.

(** C9: with no tag constraint and [is_root=True], when the call returns, a
    task of the store is in the result exactly when it passes the other
    filters and every parent resolves to a Note; a parent that is not a Note
    keeps it out, and a task without parents only has to pass the other
    filters. *)
Theorem root_only_without_tags (ds : datastore) (tags : option (list Tag))
        (status : list string) (notag_only started_only : bool)
        (l : list tid) (t : tid) (tk : Task) :
  truthy tags = false ->
  get_tasks_list ds tags status notag_only started_only true = Ok l ->
  In t (all_tasks ds) ->
  get_task ds t = Some tk ->
  (In t l <->
   passes_filters status notag_only started_only tk /\
   forall p, In p (get_parents tk) ->
             exists pp, get_task ds p = Some pp /\ get_status pp = "Note") /\
  ((exists p pp, In p (get_parents tk) /\ get_task ds p = Some pp /\
                 get_status pp <> "Note") -> ~ In t l) /\
  (get_parents tk = [] ->
   (In t l <-> passes_filters status notag_only started_only tk)).
Proof.
  intros Ht Hl Hall Hg.
  assert (Hiff : In t l <->
                 passes_filters status notag_only started_only tk /\
                 forall p, In p (get_parents tk) ->
                           exists pp, get_task ds p = Some pp /\
                                      get_status pp = "Note").
  { split.
    - intros Hin.
      destruct (get_tasks_list_in _ _ _ _ _ _ _ _ Hl Hin) as (_ & tk' & Hs).
      apply select_task_some in Hs. destruct Hs as (Hg' & Hp & _ & Hn).
      rewrite Hg in Hg'. inversion Hg'; subst tk'.
      split; [assumption|]. apply Hn; [assumption|reflexivity].
    - intros (Hp & Hn).
      apply (get_tasks_list_accepts _ _ _ _ _ _ _ _ tk Hl Hall).
      apply select_task_root_accept; assumption. }
  split; [exact Hiff|]. split.
  - intros (p & pp & Hin & Hgp & Hs) Hc. apply Hiff in Hc.
    destruct Hc as (_ & Hn). destruct (Hn p Hin) as (pp' & Hgp' & Hs').
    rewrite Hgp in Hgp'. inversion Hgp'; subst pp'. contradiction.
  - intros Hnil. rewrite Hiff, Hnil. split; [tauto|].
    intros Hp. split; [assumption|]. intros p [].
Qed.

Lemma root_only_without_tags_witness :
  truthy (Some []) = false /\
  get_tasks_list note_child_store (Some []) ["Active"] false true true
  = Ok ["F"] /\
  In "F" (all_tasks note_child_store) /\
  get_task note_child_store "F" = Some (plain_task "Active" [] ["G"]) /\
  (In "F" ["F"] <->
   passes_filters ["Active"] false true (plain_task "Active" [] ["G"]) /\
   forall p, In p ["G"] ->
             exists pp, get_task note_child_store p = Some pp /\
                        get_status pp = "Note").
Proof.
  split; [reflexivity|]. split; [reflexivity|].
  split; [left; reflexivity|]. split; [reflexivity|].
  apply (proj1 (root_only_without_tags note_child_store (Some []) ["Active"]
                  false true ["F"] "F" (plain_task "Active" [] ["G"])
                  eq_refl eq_refl (or_introl eq_refl) eq_refl)).
Defined.

(** ** The used tags *)

Lemma first_seen_ext (s1 s2 stream : list Tag) :
  (forall x, In x s1 <-> In x s2) ->
  first_seen s1 stream = first_seen s2 stream.
Proof.
  revert s1 s2. induction stream as [|x s IH]; simpl; intros s1 s2 H.
  - reflexivity.
  - assert (E : tag_in x s1 = tag_in x s2).
    { destruct (tag_in x s2) eqn:E2.
      - apply tag_in_iff, H, tag_in_iff. assumption.
      - apply tag_in_false_iff. intros Hc. apply H in Hc.
        apply tag_in_iff in Hc. rewrite Hc in E2. discriminate. }
    rewrite E. destruct (tag_in x s2).
    + apply IH. assumption.
    + f_equal. apply IH. intros y. simpl. rewrite H. reflexivity.
Qed.

Lemma add_tags_first_seen (tags l : list Tag) :
  add_tags l tags = l ++ first_seen l tags.
Proof.
  unfold add_tags. revert l. induction tags as [|x s IH]; simpl; intros l.
  - rewrite app_nil_r. reflexivity.
  - rewrite IH. destruct (tag_in x l); simpl; [reflexivity|].
    rewrite <- app_assoc. simpl. do 2 f_equal.
    apply first_seen_ext. intros y. rewrite in_app_iff. simpl. tauto.
Qed.

Lemma add_tags_app (s1 s2 l : list Tag) :
  add_tags l (s1 ++ s2) = add_tags (add_tags l s1) s2.
Proof. unfold add_tags. apply fold_left_app. Qed.

Lemma used_tags_loop (ds : datastore) (tids : list tid) (l : list Tag) :
  fold_left (fun l t => match get_task ds t with
                        | Some tk => add_tags l (get_tags tk)
                        | None => l
                        end) tids l
  = add_tags l (flat_map (fun t => match get_task ds t with
                                   | Some tk => get_tags tk
                                   | None => []
                                   end) tids).
Proof.
  revert l. induction tids as [|t rest IH]; simpl; intros l.
  - reflexivity.
  - rewrite IH, add_tags_app. destruct (get_task ds t); reflexivity.
Qed.

Lemma first_seen_in (stream seen : list Tag) (x : Tag) :
  In x (first_seen seen stream) <-> In x stream /\ ~ In x seen.
Proof.
  revert seen. induction stream as [|y s IH]; simpl; intros seen.
  - tauto.
  - destruct (tag_in y seen) eqn:E.
    + apply tag_in_iff in E. rewrite IH. split.
      * tauto.
      * intros ([<-|H] & Hn); [contradiction|tauto].
    + apply tag_in_false_iff in E. simpl. rewrite IH. simpl. split.
      * intros [<-|(H & Hn)]; [tauto|]. split; [tauto|].
        intros Hc. apply Hn. right. assumption.
      * intros ([<-|H] & Hn); [tauto|].
        destruct (Tag_eq_dec y x) as [<-|Hne]; [tauto|].
        right. split; [assumption|]. intros [Hc|Hc]; contradiction.
Qed.

Lemma first_seen_NoDup (stream seen : list Tag) : NoDup (first_seen seen stream).
Proof.
  revert seen. induction stream as [|y s IH]; simpl; intros seen.
  - constructor.
  - destruct (tag_in y seen); [apply IH|].
    constructor; [|apply IH].
    rewrite first_seen_in. simpl. tauto.
Qed.

Lemma first_seen_app (s1 s2 seen : list Tag) :
  first_seen seen (s1 ++ s2)
  = first_seen seen s1 ++ first_seen (rev s1 ++ seen) s2.
Proof.
  revert seen. induction s1 as [|x s IH]; simpl; intros seen.
  - reflexivity.
  - destruct (tag_in x seen) eqn:E.
    + rewrite IH. f_equal. apply first_seen_ext. intros y.
      apply tag_in_iff in E. rewrite !in_app_iff. simpl.
      split; [tauto|]. intros [[H|[<-|[]]]|H]; tauto.
    + simpl. rewrite IH. do 2 f_equal. apply first_seen_ext. intros y.
      rewrite !in_app_iff. simpl. tauto.
Qed.

(** C7: the used tags are the tags of the resolvable tasks of the store's
    iteration, each kept at its first occurrence: a tag is in the list
    exactly when a resolvable task carries it, and no tag is there twice.
    Each tag comes right after the distinct tags met before its first
    occurrence.  Neither the status nor the loaded flag of a task is looked
    at. *)
Theorem get_used_tags_spec (ds : datastore) :
  get_used_tags ds = first_seen [] (tag_stream ds) /\
  NoDup (get_used_tags ds) /\
  (forall tag, In tag (get_used_tags ds) <->
               exists t tk, In t (all_tasks ds) /\ get_task ds t = Some tk /\
                            In tag (get_tags tk)) /\
  (forall pre tag post,
      tag_stream ds = pre ++ tag :: post -> ~ In tag pre ->
      exists rest, get_used_tags ds = first_seen [] pre ++ tag :: rest).
Proof.
  assert (E : get_used_tags ds = first_seen [] (tag_stream ds)).
  { unfold get_used_tags, tag_stream.
    rewrite used_tags_loop, add_tags_first_seen. reflexivity. }
  split; [exact E|]. rewrite E. split; [apply first_seen_NoDup|].
  split.
  2:{ intros pre tag post Hs Hn. rewrite Hs, first_seen_app. simpl.
      assert (Hf : tag_in tag (rev pre ++ []) = false).
      { apply tag_in_false_iff. rewrite app_nil_r, <- in_rev. assumption. }
      rewrite Hf. eexists. reflexivity. }
  intros tag. rewrite first_seen_in. unfold tag_stream. rewrite in_flat_map.
  split.
  - intros ((t & Hin & Htag) & _).
    destruct (get_task ds t) as [tk|] eqn:Hg; [|contradiction].
    exists t, tk. auto.
  - intros (t & tk & Hin & Hg & Htag). split; [|intros []].
    exists t. rewrite Hg. auto.
Qed.

(** * Further properties of the queries *)

(** ** When the task filter raises *)

Lemma parents_loop_raise_iff (ds : datastore) (ps : list tid) (task : option Task) :
  parents_loop ds ps task = Raise AttributeError <->
  exists p, In p ps /\ get_task ds p = None.
Proof.
  revert task. induction ps as [|p ps IH]; intros task;
    unfold parents_loop; fold parents_loop.
  - split; [discriminate|]. intros (p & [] & _).
  - destruct (get_task ds p) as [pp|] eqn:E.
    + rewrite IH. split.
      * intros (q & Hq & Hn). exists q. split; [right|]; assumption.
      * intros (q & [<-|Hq] & Hn); [rewrite E in Hn; discriminate|].
        exists q. split; assumption.
    + split; [|reflexivity]. intros _. exists p.
      split; [left; reflexivity|assumption].
Qed.

(** The decision on one identifier raises exactly when the parent loop is
    reached, that is for a loaded task with a requested status, without tag
    constraint and with [is_root], one of whose parents resolves to
    nothing. *)
Lemma select_task_raise_iff (ds : datastore) (tags : option (list Tag))
      (status : list string) (notag_only started_only is_root : bool) (t : tid) :
  select_task ds tags status notag_only started_only is_root t
  = Raise AttributeError <->
  truthy tags = false /\ is_root = true /\
  exists tk p, get_task ds t = Some tk /\ is_loaded tk = true /\
               In (get_status tk) status /\
               In p (get_parents tk) /\ get_task ds p = None.
Proof.
  split.
  - intros H.
    destruct (truthy tags) eqn:Ht.
    { destruct (select_task_no_raise ds tags status notag_only started_only
                  is_root t (or_introl Ht)) as (r & Hr).
      rewrite Hr in H. discriminate. }
    destruct is_root.
    2:{ destruct (select_task_no_raise ds tags status notag_only started_only
                    false t (or_intror eq_refl)) as (r & Hr).
        rewrite Hr in H. discriminate. }
    split; [reflexivity|]. split; [reflexivity|].
    unfold select_task in H. rewrite Ht in H.
    destruct (get_task ds t) as [tk|]; [|simpl in H; discriminate].
    destruct (is_loaded tk) eqn:Hl; simpl in H; [|discriminate].
    destruct (status_in (get_status tk) status) eqn:Hs; simpl in H;
      [|discriminate].
    destruct (has_parents ds tk None); [|simpl in H; discriminate].
    destruct (parents_loop ds (get_parents tk) (Some tk)) as [r|e] eqn:Hp;
      [simpl in H; discriminate|].
    destruct e. apply parents_loop_raise_iff in Hp. destruct Hp as (p & Hin & Hn).
    exists tk, p. rewrite status_in_iff in Hs. auto.
  - intros (Ht & -> & tk & p & Hg & Hl & Hs & Hin & Hn).
    unfold select_task. rewrite Hg, Hl, Ht. simpl.
    rewrite (proj2 (status_in_iff _ _) Hs). simpl.
    assert (Hp : has_parents ds tk None = true).
    { unfold has_parents. simpl. destruct (get_parents tk); [contradiction|].
      reflexivity. }
    rewrite Hp.
    rewrite (proj2 (parents_loop_raise_iff ds (get_parents tk) (Some tk)))
      by (exists p; auto).
    reflexivity.
Qed.

Lemma tasks_loop_raise_iff (ds : datastore) (tags : option (list Tag))
      (status : list string) (notag_only started_only is_root : bool)
      (tids l_tasks : list tid) :
  tasks_loop ds tags status notag_only started_only is_root tids l_tasks
  = Raise AttributeError <->
  exists t, In t tids /\
            select_task ds tags status notag_only started_only is_root t
            = Raise AttributeError.
Proof.
  revert l_tasks. induction tids as [|t rest IH]; intros l_tasks; simpl.
  - split; [discriminate|]. intros (t & [] & _).
  - destruct (select_task ds tags status notag_only started_only is_root t)
      as [r|e] eqn:E; simpl.
    + rewrite IH. split.
      * intros (q & Hq & Hr). exists q. split; [right|]; assumption.
      * intros (q & [<-|Hq] & Hr); [rewrite E in Hr; discriminate|].
        exists q. split; assumption.
    + destruct e. split; [|reflexivity]. intros _. exists t.
      split; [left; reflexivity|assumption].
Qed.

(** The cases in which the filter raises. *)
Lemma get_tasks_list_raise_cases (ds : datastore) (tags : option (list Tag))
        (status : list string) (notag_only started_only is_root : bool) :
  get_tasks_list ds tags status notag_only started_only is_root
  = Raise AttributeError <->
  truthy tags = false /\ is_root = true /\
  exists t tk p, In t (all_tasks ds) /\ get_task ds t = Some tk /\
                 is_loaded tk = true /\ In (get_status tk) status /\
                 In p (get_parents tk) /\ get_task ds p = None.
Proof.
  unfold get_tasks_list. rewrite tasks_loop_raise_iff. split.
  - intros (t & Hin & Hr). apply select_task_raise_iff in Hr.
    destruct Hr as (Ht & Hroot & tk & p & H). repeat split; try assumption.
    exists t, tk, p. tauto.
  - intros (Ht & Hroot & t & tk & p & Hin & H). exists t.
    split; [assumption|]. apply select_task_raise_iff.
    repeat split; try assumption. exists tk, p. assumption.
Qed.

(** X1: [get_tasks_list] fails exactly when it is called without tag constraint
    and with [is_root=True] on a store where some identifier resolves to a
    loaded task with a requested status that has a parent resolving to
    nothing.  The tests on [notag_only] and [started_only] come later and do
    not prevent the failure. *)
Theorem get_tasks_list_raises_iff (ds : datastore) (tags : option (list Tag))
        (status : list string) (notag_only started_only is_root : bool) :
  get_tasks_list ds tags status notag_only started_only is_root
  = Raise AttributeError <->
  truthy tags = false /\ is_root = true /\
  exists t tk p, In t (all_tasks ds) /\ get_task ds t = Some tk /\
                 is_loaded tk = true /\ In (get_status tk) status /\
                 In p (get_parents tk) /\ get_task ds p = None.
Proof.
  unfold get_tasks_list. rewrite tasks_loop_raise_iff. split.
  - intros (t & Hin & Hr). apply select_task_raise_iff in Hr.
    destruct Hr as (Ht & Hroot & tk & p & H). repeat split; try assumption.
    exists t, tk, p. tauto.
  - intros (Ht & Hroot & t & tk & p & Hin & H). exists t.
    split; [assumption|]. apply select_task_raise_iff.
    repeat split; try assumption. exists tk, p. assumption.
Qed.

(** ** What the task filter keeps *)

Lemma has_parents_tag_false_iff (ds : datastore) (tk : Task)
      (tags : option (list Tag)) :
  truthy tags = true ->
  (has_parents ds tk tags = false <->
   forall p pp tag, In p (get_parents tk) -> get_task ds p = Some pp ->
                    In tag (tag_list tags) -> ~ In tag (get_tags pp)).
Proof.
  intros Ht. unfold has_parents. rewrite Ht. split.
  - intros H p pp tag Hp Hg Htag Hc.
    assert (E : existsb (fun p => match get_task ds p with
                                  | Some pp => has_tags pp (tag_list tags) false
                                  | None => false
                                  end) (get_parents tk) = true).
    { apply existsb_exists. exists p. split; [assumption|]. rewrite Hg.
      apply has_tags_iff. exists tag. split; assumption. }
    rewrite E in H. discriminate.
  - intros H.
    destruct (existsb _ (get_parents tk)) eqn:E; [|reflexivity].
    apply existsb_exists in E. destruct E as (p & Hp & Hh).
    destruct (get_task ds p) as [pp|] eqn:Hg; [|discriminate].
    apply has_tags_iff in Hh. destruct Hh as (tag & Htag & Hc).
    exfalso. exact (H p pp tag Hp Hg Htag Hc).
Qed.

Lemma select_task_tag_accept (ds : datastore) (tags : option (list Tag))
      (status : list string) (notag_only started_only is_root : bool)
      (t : tid) (tk : Task) :
  truthy tags = true ->
  get_task ds t = Some tk ->
  passes_filters status notag_only started_only tk ->
  has_tags tk (tag_list tags) false = true ->
  (is_root = true -> has_parents ds tk tags = false) ->
  select_task ds tags status notag_only started_only is_root t = Ok (Some tk).
Proof.
  intros Ht Hg Hp Hh Hr. unfold select_task. rewrite Hg, Ht.
  destruct Hp as (Hl & Hs & Hrest). rewrite Hl. simpl.
  rewrite (proj2 (status_in_iff _ _) Hs). simpl. rewrite Hh. simpl.
  destruct is_root; simpl.
  - rewrite (Hr eq_refl). apply (select_task_tail status); repeat split; tauto.
  - apply (select_task_tail status); repeat split; tauto.
Qed.

Lemma accepted_iff (ds : datastore) (tags : option (list Tag))
      (status : list string) (notag_only started_only is_root : bool) (t : tid) :
  accepted ds tags status notag_only started_only is_root t = true <->
  kept ds tags status notag_only started_only is_root t.
Proof.
  unfold accepted, kept. split.
  - destruct (select_task ds tags status notag_only started_only is_root t)
      as [[tk|]|] eqn:E; try discriminate.
    intros _. exists tk. apply select_task_some. assumption.
  - intros (tk & Hg & Hp & Ht & Hn).
    assert (E : select_task ds tags status notag_only started_only is_root t
                = Ok (Some tk)).
    { destruct (truthy tags) eqn:Etr.
      - destruct (Ht eq_refl) as (Hh & Hr).
        apply select_task_tag_accept; assumption.
      - destruct is_root.
        + apply select_task_root_accept; try assumption.
          apply Hn; reflexivity.
        + apply select_task_flat_accept; try assumption.
          intros Hc. rewrite Etr in Hc. discriminate. }
    rewrite E. reflexivity.
Qed.

Lemma get_tasks_list_kept (ds : datastore) (tags : option (list Tag))
      (status : list string) (notag_only started_only is_root : bool)
      (l : list tid) :
  get_tasks_list ds tags status notag_only started_only is_root = Ok l ->
  forall t, In t l <->
            In t (all_tasks ds) /\
            kept ds tags status notag_only started_only is_root t.
Proof.
  intros H t. rewrite (get_tasks_list_ok _ _ _ _ _ _ l H), filter_In, accepted_iff.
  reflexivity.
Qed.

Lemma get_tasks_list_ok_or_raise (ds : datastore) (tags : option (list Tag))
      (status : list string) (notag_only started_only is_root : bool) :
  get_tasks_list ds tags status notag_only started_only is_root
  = Raise AttributeError \/
  get_tasks_list ds tags status notag_only started_only is_root
  = Ok (filter (accepted ds tags status notag_only started_only is_root)
          (all_tasks ds)).
Proof.
  destruct (get_tasks_list ds tags status notag_only started_only is_root)
    as [l|[]] eqn:E; [right|left; reflexivity].
  rewrite (get_tasks_list_ok _ _ _ _ _ _ l E). reflexivity.
Qed.

Lemma filter_filter_and {A : Type} (f g h : A -> bool) (l : list A) :
  (forall a, In a l -> f a = h a && g a) ->
  filter f l = filter g (filter h l).
Proof.
  induction l as [|a l IH]; simpl; intros H; [reflexivity|].
  rewrite (H a (or_introl eq_refl)).
  rewrite IH by (intros b Hb; apply H; right; assumption).
  destruct (h a); simpl; [|reflexivity].
  destruct (g a); reflexivity.
Qed.

Lemma bool_eq_iff (a b : bool) : (a = true <-> b = true) -> a = b.
Proof. destruct a, b; intros [H1 H2]; auto; symmetry; auto. Qed.

(** X2: Without [is_root] the filter always returns, and keeps exactly the
    identifiers of the store that resolve to a loaded task with a requested
    status, carrying one of the tags asked for when there is a constraint,
    without tags when [notag_only], started when [started_only]. *)
Theorem get_tasks_list_flat_spec (ds : datastore) (tags : option (list Tag))
        (status : list string) (notag_only started_only : bool) :
  exists l,
    get_tasks_list ds tags status notag_only started_only false = Ok l /\
    forall t,
      In t l <->
      In t (all_tasks ds) /\
      exists tk, get_task ds t = Some tk /\
                 passes_filters status notag_only started_only tk /\
                 (truthy tags = true ->
                  exists tag, In tag (tag_list tags) /\ In tag (get_tags tk)).
Proof.
  destruct (get_tasks_list_ok_or_raise ds tags status notag_only started_only false)
    as [H|H].
  { apply get_tasks_list_raise_cases in H. destruct H as (_ & H & _).
    discriminate. }
  eexists. split; [exact H|]. intros t.
  rewrite filter_In, accepted_iff. unfold kept. split.
  - intros (Hin & tk & Hg & Hp & Ht & _). split; [assumption|].
    exists tk. repeat split; try assumption; try apply Hp.
    intros Htr. apply has_tags_iff. apply Ht. assumption.
  - intros (Hin & tk & Hg & Hp & Ht). split; [assumption|].
    exists tk. repeat split; try assumption; try apply Hp.
    + apply has_tags_iff. apply Ht. assumption.
    + discriminate.
    + discriminate.
Qed.

(** X3: With a tag constraint and [is_root] the filter always returns; a task
    is kept when, beyond the other filters, none of its parents that resolve
    carries a tag of the constraint. *)
Theorem get_tasks_list_tag_root_spec (ds : datastore) (tags : option (list Tag))
        (status : list string) (notag_only started_only : bool) :
  truthy tags = true ->
  exists l,
    get_tasks_list ds tags status notag_only started_only true = Ok l /\
    forall t,
      In t l <->
      In t (all_tasks ds) /\
      exists tk, get_task ds t = Some tk /\
                 passes_filters status notag_only started_only tk /\
                 (exists tag, In tag (tag_list tags) /\ In tag (get_tags tk)) /\
                 forall p pp tag,
                   In p (get_parents tk) -> get_task ds p = Some pp ->
                   In tag (tag_list tags) -> ~ In tag (get_tags pp).
Proof.
  intros Htr.
  destruct (get_tasks_list_ok_or_raise ds tags status notag_only started_only true)
    as [H|H].
  { apply get_tasks_list_raise_cases in H. destruct H as (H & _).
    rewrite Htr in H. discriminate. }
  eexists. split; [exact H|]. intros t.
  rewrite filter_In, accepted_iff. unfold kept. split.
  - intros (Hin & tk & Hg & Hp & Ht & _). split; [assumption|].
    destruct (Ht Htr) as (Hh & Hr).
    exists tk. repeat split; try assumption; try apply Hp.
    + apply has_tags_iff. assumption.
    + apply has_parents_tag_false_iff; [assumption|]. apply Hr. reflexivity.
  - intros (Hin & tk & Hg & Hp & Ht & Hr). split; [assumption|].
    exists tk. repeat split; try assumption; try apply Hp.
    + apply has_tags_iff. assumption.
    + intros _. apply has_parents_tag_false_iff; assumption.
    + intros Hc. rewrite Htr in Hc. discriminate.
Qed.

Lemma get_tasks_list_tag_root_spec_witness :
  truthy (Some [tag_waiting]) = true /\
  exists l,
    get_tasks_list nonwork_store (Some [tag_waiting]) ["Active"] false true true
    = Ok l /\
    forall t,
      In t l <->
      In t (all_tasks nonwork_store) /\
      exists tk, get_task nonwork_store t = Some tk /\
                 passes_filters ["Active"] false true tk /\
                 (exists tag, In tag (tag_list (Some [tag_waiting])) /\
                              In tag (get_tags tk)) /\
                 forall p pp tag,
                   In p (get_parents tk) -> get_task nonwork_store p = Some pp ->
                   In tag (tag_list (Some [tag_waiting])) ->
                   ~ In tag (get_tags pp).
Proof.
  split; [reflexivity|].
  apply (get_tasks_list_tag_root_spec nonwork_store (Some [tag_waiting])
           ["Active"] false true).
  reflexivity.
Defined.

(** X4: Identifiers that the store lists once are returned at most once:
    the filter adds no duplicate. *)
Theorem get_tasks_list_NoDup (ds : datastore) (tags : option (list Tag))
        (status : list string) (notag_only started_only is_root : bool)
        (l : list tid) :
  NoDup (all_tasks ds) ->
  get_tasks_list ds tags status notag_only started_only is_root = Ok l ->
  NoDup l.
Proof.
  intros Hnd H. rewrite (get_tasks_list_ok _ _ _ _ _ _ l H).
  apply NoDup_filter. assumption.
Qed.

Lemma get_tasks_list_NoDup_witness :
  NoDup (all_tasks scenario_store) /\
  get_tasks_list scenario_store None ["Active"; "Done"] false false false
  = Ok ["A"; "B"; "C"] /\
  NoDup ["A"; "B"; "C"].
Proof.
  assert (Hnd : NoDup (all_tasks scenario_store)).
  { simpl. repeat constructor; simpl; intuition discriminate. }
  split; [exact Hnd|]. split; [reflexivity|].
  apply (get_tasks_list_NoDup scenario_store None ["Active"; "Done"]
           false false false ["A"; "B"; "C"] Hnd).
  reflexivity.
Defined.

(** ** How the options compose *)

Lemma get_tasks_list_same_raise (ds : datastore) (tags : option (list Tag))
      (status : list string) (n1 s1 n2 s2 is_root : bool) (l : list tid) :
  get_tasks_list ds tags status n1 s1 is_root = Ok l ->
  get_tasks_list ds tags status n2 s2 is_root
  = Ok (filter (accepted ds tags status n2 s2 is_root) (all_tasks ds)).
Proof.
  intros H.
  destruct (get_tasks_list_ok_or_raise ds tags status n2 s2 is_root) as [E|E];
    [|exact E].
  apply get_tasks_list_raise_cases in E.
  apply (get_tasks_list_raise_cases ds tags status n1 s1 is_root) in E.
  rewrite E in H. discriminate.
Qed.

(** X5: [started_only=True] gives the result of [started_only=False] with the
    tasks that are not started taken out, in the same order; the two calls
    return or fail together. *)
Theorem get_tasks_list_started_only (ds : datastore) (tags : option (list Tag))
        (status : list string) (notag_only is_root : bool) (l : list tid) :
  get_tasks_list ds tags status notag_only false is_root = Ok l ->
  get_tasks_list ds tags status notag_only true is_root
  = Ok (filter (task_is_started ds) l).
Proof.
  intros H.
  rewrite (get_tasks_list_same_raise ds tags status notag_only false
             notag_only true is_root l H).
  rewrite (get_tasks_list_ok _ _ _ _ _ _ l H). f_equal.
  apply filter_filter_and. intros t _. apply bool_eq_iff.
  rewrite andb_true_iff, !accepted_iff. unfold kept, task_is_started, passes_filters.
  split.
  - intros (tk & Hg & (Hl & Hs & Hn & Hst) & Ht & Hr). rewrite Hg. split.
    + exists tk. split; [reflexivity|]. split; [|split; assumption].
      repeat split; try assumption. discriminate.
    + apply Hst. reflexivity.
  - intros ((tk & Hg & (Hl & Hs & Hn & _) & Ht & Hr) & Hst). rewrite Hg in Hst.
    exists tk. split; [assumption|]. split; [|split; assumption].
    repeat split; try assumption. intros _. assumption.
Qed.

Lemma get_tasks_list_started_only_witness :
  get_tasks_list scenario_store None ["Active"] false false false
  = Ok ["A"; "B"] /\
  get_tasks_list scenario_store None ["Active"] false true false
  = Ok (filter (task_is_started scenario_store) ["A"; "B"]).
Proof.
  split; [reflexivity|].
  apply (get_tasks_list_started_only scenario_store None ["Active"] false false
           ["A"; "B"]).
  reflexivity.
Defined.

(** X6: [notag_only=True] gives the result of [notag_only=False] with the tasks
    that carry a tag taken out, in the same order. *)
Theorem get_tasks_list_notag_only (ds : datastore) (tags : option (list Tag))
        (status : list string) (started_only is_root : bool) (l : list tid) :
  get_tasks_list ds tags status false started_only is_root = Ok l ->
  get_tasks_list ds tags status true started_only is_root
  = Ok (filter (task_has_no_tag ds) l).
Proof.
  intros H.
  rewrite (get_tasks_list_same_raise ds tags status false started_only
             true started_only is_root l H).
  rewrite (get_tasks_list_ok _ _ _ _ _ _ l H). f_equal.
  apply filter_filter_and. intros t _. apply bool_eq_iff.
  rewrite andb_true_iff, !accepted_iff. unfold kept, task_has_no_tag, passes_filters.
  split.
  - intros (tk & Hg & (Hl & Hs & Hn & Hst) & Ht & Hr). rewrite Hg. split.
    + exists tk. split; [reflexivity|]. split; [|split; assumption].
      repeat split; try assumption. discriminate.
    + apply has_no_tags_iff. apply Hn. reflexivity.
  - intros ((tk & Hg & (Hl & Hs & _ & Hst) & Ht & Hr) & Hn). rewrite Hg in Hn.
    exists tk. split; [assumption|]. split; [|split; assumption].
    repeat split; try assumption. intros _.
    apply (has_no_tags_iff tk []). assumption.
Qed.

Lemma get_tasks_list_notag_only_witness :
  get_tasks_list scenario_store None ["Active"] false false false
  = Ok ["A"; "B"] /\
  get_tasks_list scenario_store None ["Active"] true false false
  = Ok (filter (task_has_no_tag scenario_store) ["A"; "B"]).
Proof.
  split; [reflexivity|].
  apply (get_tasks_list_notag_only scenario_store None ["Active"] false false
           ["A"; "B"]).
  reflexivity.
Defined.

(** X7: [is_root=True] only takes identifiers out: when the root-only call
    returns, the same call without [is_root] returns a list that holds all of
    its identifiers. *)
Theorem get_tasks_list_root_subset (ds : datastore) (tags : option (list Tag))
        (status : list string) (notag_only started_only : bool) (l : list tid) :
  get_tasks_list ds tags status notag_only started_only true = Ok l ->
  exists l',
    get_tasks_list ds tags status notag_only started_only false = Ok l' /\
    forall t, In t l -> In t l'.
Proof.
  intros H.
  destruct (get_tasks_list_ok_or_raise ds tags status notag_only started_only false)
    as [E|E].
  { apply get_tasks_list_raise_cases in E. destruct E as (_ & E & _).
    discriminate. }
  eexists. split; [exact E|]. intros t Hin.
  apply (get_tasks_list_kept _ _ _ _ _ _ _ H) in Hin.
  destruct Hin as (Hall & tk & Hg & Hp & Ht & _).
  rewrite filter_In, accepted_iff. split; [assumption|].
  exists tk. split; [assumption|]. split; [assumption|]. split.
  - intros Htr. split; [apply Ht; assumption|discriminate].
  - discriminate.
Qed.

Lemma get_tasks_list_root_subset_witness :
  get_tasks_list subtask_store None ["Active"] false true true = Ok ["2"] /\
  exists l',
    get_tasks_list subtask_store None ["Active"] false true false = Ok l' /\
    forall t, In t ["2"] -> In t l'.
Proof.
  split; [reflexivity|].
  apply (get_tasks_list_root_subset subtask_store None ["Active"] false true ["2"]).
  reflexivity.
Defined.

(** X8: Asking for the statuses of two lists at once gives the identifiers of
    the two separate calls: when the joint call returns, so do the separate
    ones, and an identifier is in the joint result exactly when it is in one
    of theirs. *)
Theorem get_tasks_list_status_app (ds : datastore) (tags : option (list Tag))
        (s1 s2 : list string) (notag_only started_only is_root : bool)
        (l : list tid) :
  get_tasks_list ds tags (s1 ++ s2) notag_only started_only is_root = Ok l ->
  exists l1 l2,
    get_tasks_list ds tags s1 notag_only started_only is_root = Ok l1 /\
    get_tasks_list ds tags s2 notag_only started_only is_root = Ok l2 /\
    forall t, In t l <-> In t l1 \/ In t l2.
Proof.
  intros H.
  assert (Hpart : forall s, (forall x, In x s -> In x (s1 ++ s2)) ->
            get_tasks_list ds tags s notag_only started_only is_root
            = Ok (filter (accepted ds tags s notag_only started_only is_root)
                    (all_tasks ds))).
  { intros s Hs.
    destruct (get_tasks_list_ok_or_raise ds tags s notag_only started_only is_root)
      as [E|E]; [|exact E].
    apply get_tasks_list_raise_cases in E.
    destruct E as (Ht & Hr & t & tk & p & Hin & Hg & Hl & Hst & Hp).
    assert (E : get_tasks_list ds tags (s1 ++ s2) notag_only started_only is_root
                = Raise AttributeError).
    { apply get_tasks_list_raise_cases. repeat split; try assumption.
      exists t, tk, p. repeat split; try tauto. apply Hs. assumption. }
    rewrite E in H. discriminate. }
  eexists. eexists.
  split; [apply Hpart; intros x Hx; apply in_or_app; left; assumption|].
  split; [apply Hpart; intros x Hx; apply in_or_app; right; assumption|].
  intros t. rewrite (get_tasks_list_kept _ _ _ _ _ _ _ H), !filter_In, !accepted_iff.
  unfold kept, passes_filters. split.
  - intros (Hin & tk & Hg & (Hl & Hs & Hrest) & Htail).
    apply in_app_or in Hs. destruct Hs as [Hs|Hs]; [left|right];
      (split; [assumption|]); exists tk; tauto.
  - intros [(Hin & tk & Hg & (Hl & Hs & Hrest) & Htail)
           |(Hin & tk & Hg & (Hl & Hs & Hrest) & Htail)];
      (split; [assumption|]); exists tk;
      (split; [assumption|]); (split; [|assumption]);
      (split; [assumption|]); (split; [|assumption]);
      apply in_or_app; [left|right]; assumption.
Qed.

Lemma get_tasks_list_status_app_witness :
  get_tasks_list scenario_store None (["Active"] ++ ["Done"]) false false false
  = Ok ["A"; "B"; "C"] /\
  exists l1 l2,
    get_tasks_list scenario_store None ["Active"] false false false = Ok l1 /\
    get_tasks_list scenario_store None ["Done"] false false false = Ok l2 /\
    forall t, In t ["A"; "B"; "C"] <-> In t l1 \/ In t l2.
Proof.
  split; [reflexivity|].
  apply (get_tasks_list_status_app scenario_store None ["Active"] ["Done"]
           false false false ["A"; "B"; "C"]).
  reflexivity.
Defined.

(** ** No tag list and the empty tag list *)

Lemma tasks_loop_no_tags (ds : datastore) (status : list string)
      (notag_only started_only is_root : bool) (tids l_tasks : list tid) :
  tasks_loop ds None status notag_only started_only is_root tids l_tasks
  = tasks_loop ds (Some []) status notag_only started_only is_root tids l_tasks.
Proof.
  revert l_tasks. induction tids as [|t rest IH]; intros l_tasks; simpl.
  - reflexivity.
  - change (select_task ds (Some []) status notag_only started_only is_root t)
      with (select_task ds None status notag_only started_only is_root t).
    destruct (select_task ds None status notag_only started_only is_root t);
      simpl; [apply IH|reflexivity].
Qed.

Lemma nonwork_loop_no_tags (fuel : nat) (nonwork_tag : list Tag) (i : nat) :
  nonwork_loop fuel None nonwork_tag i = nonwork_tag /\
  nonwork_loop fuel (Some []) nonwork_tag i = nonwork_tag.
Proof.
  revert i. induction fuel as [|fuel IH]; intros i; simpl; [auto|].
  destruct (nth_error nonwork_tag i); [apply IH|auto].
Qed.

(** X9: [tags=None] and [tags=[]] are the same request in every query: the
    empty list is no tag constraint, not a constraint that nothing meets. *)
Theorem empty_tags_is_no_tags (ds : datastore) (status : list string)
        (notag_only started_only is_root workable : bool) :
  get_tasks_list ds (Some []) status notag_only started_only is_root
  = get_tasks_list ds None status notag_only started_only is_root /\
  get_active_tasks_list ds (Some []) notag_only started_only is_root workable
  = get_active_tasks_list ds None notag_only started_only is_root workable /\
  get_closed_tasks_list ds (Some []) notag_only started_only is_root
  = get_closed_tasks_list ds None notag_only started_only is_root /\
  get_notes_list ds (Some []) notag_only = get_notes_list ds None notag_only.
Proof.
  assert (Hbase : forall status n s r,
             get_tasks_list ds (Some []) status n s r
             = get_tasks_list ds None status n s r).
  { intros. unfold get_tasks_list. symmetry. apply tasks_loop_no_tags. }
  split; [apply Hbase|]. split; [|split; apply Hbase].
  unfold get_active_tasks_list, active_tasks_flat, nonwork_tags.
  rewrite !Hbase.
  rewrite (proj1 (nonwork_loop_no_tags _ _ _)), (proj2 (nonwork_loop_no_tags _ _ _)).
  reflexivity.
Qed.

(** ** The tags hidden from the work view *)

Lemma list_remove_keeps (x y : Tag) (l : list Tag) :
  x <> y -> In x l -> In x (list_remove y l).
Proof.
  intros Hne. induction l as [|z l IH]; simpl; [tauto|].
  destruct (Tag_eq_dec y z) as [<-|Hz].
  - intros [E|H]; [symmetry in E; contradiction|assumption].
  - simpl. intros [E|H]; [left; assumption|right; apply IH; assumption].
Qed.

Lemma nonwork_loop_keeps (tags : option (list Tag)) (x : Tag) (fuel : nat) :
  truthy tags && tag_in x (tag_list tags) = false ->
  forall (nonwork_tag : list Tag) (i : nat),
    In x nonwork_tag -> In x (nonwork_loop fuel tags nonwork_tag i).
Proof.
  intros Hx. induction fuel as [|fuel IH]; intros nonwork_tag i Hin; simpl;
    [assumption|].
  destruct (nth_error nonwork_tag i) as [nwtag|]; [|assumption].
  destruct (truthy tags && tag_in nwtag (tag_list tags)) eqn:E.
  - apply IH. apply list_remove_keeps; [|assumption].
    intros <-. rewrite E in Hx. discriminate.
  - apply IH. assumption.
Qed.

(** X10: A task of the workable list carries a tag flagged [nonworkview] only if
    that tag is in the [tags] argument: without tag constraint, no task with
    such a tag is workable. *)
Theorem workable_excludes_nonwork_tags (ds : datastore) (tags : option (list Tag))
        (notag_only started_only is_root : bool) (l : list tid)
        (t : tid) (tk : Task) (tag : Tag) :
  get_active_tasks_list ds tags notag_only started_only is_root true = Ok l ->
  In t l ->
  get_task ds t = Some tk ->
  In tag (get_tags tk) ->
  In tag (get_all_tags (get_tagstore ds) (Some "nonworkview") "True") ->
  truthy tags = true /\ In tag (tag_list tags).
Proof.
  intros H Hin Hg Htag Hnw.
  rewrite get_active_tasks_list_workable in H. inversion H; subst l.
  apply filter_In in Hin. destruct Hin as (_ & Hk).
  apply workable_keep_iff in Hk. destruct Hk as (tk' & Hg' & _ & Hex).
  rewrite Hg in Hg'. inversion Hg'; subst tk'.
  destruct (truthy tags && tag_in tag (tag_list tags)) eqn:E.
  - apply andb_true_iff in E. destruct E as (E1 & E2).
    split; [assumption|]. apply tag_in_iff. assumption.
  - exfalso.
    assert (Hkept : In tag (nonwork_tags ds tags)).
    { unfold nonwork_tags. apply nonwork_loop_keeps; assumption. }
    apply (Hex ltac:(intros Hc; rewrite Hc in Hkept; contradiction) tag Hkept Htag).
Qed.

Lemma workable_excludes_nonwork_tags_witness :
  get_active_tasks_list nonwork_store (Some [tag_waiting]) false true false true
  = Ok ["1"] /\
  In "1" ["1"] /\
  get_task nonwork_store "1" = Some (plain_task "Active" [tag_waiting] []) /\
  In tag_waiting (get_tags (plain_task "Active" [tag_waiting] [])) /\
  In tag_waiting
     (get_all_tags (get_tagstore nonwork_store) (Some "nonworkview") "True") /\
  truthy (Some [tag_waiting]) = true /\
  In tag_waiting (tag_list (Some [tag_waiting])).
Proof.
  split; [reflexivity|]. split; [left; reflexivity|].
  split; [reflexivity|]. split; [left; reflexivity|].
  split; [right; left; reflexivity|].
  apply (workable_excludes_nonwork_tags nonwork_store (Some [tag_waiting])
           false true false ["1"] "1" (plain_task "Active" [tag_waiting] [])
           tag_waiting);
    [reflexivity|left; reflexivity|reflexivity|left; reflexivity
    |right; left; reflexivity].
Defined.

Lemma list_remove_app (x : Tag) (pre rest : list Tag) :
  ~ In x pre -> list_remove x (pre ++ x :: rest) = pre ++ rest.
Proof.
  induction pre as [|y pre IH]; simpl; intros Hn.
  - destruct (Tag_eq_dec x x); [reflexivity|contradiction].
  - destruct (Tag_eq_dec x y) as [E|_]; [exfalso; apply Hn; left; auto|].
    rewrite IH by tauto. reflexivity.
Qed.

Lemma nth_error_middle (pre suf : list Tag) :
  nth_error (pre ++ suf) (List.length pre) = nth_error suf 0.
Proof.
  rewrite nth_error_app2 by lia. rewrite Nat.sub_diag. reflexivity.
Qed.

Lemma nonwork_loop_apart (tags : option (list Tag)) (fuel : nat) :
  forall pre suf : list Tag,
    NoDup (pre ++ suf) ->
    requested_apart tags suf ->
    List.length suf <= fuel ->
    nonwork_loop fuel tags (pre ++ suf) (List.length pre)
    = pre ++ filter (fun x => negb (requested tags x)) suf.
Proof.
  induction fuel as [|fuel IH]; intros pre suf Hnd Hap Hlen.
  - destruct suf; [reflexivity|simpl in Hlen; lia].
  - cbn [nonwork_loop]. rewrite nth_error_middle.
    destruct suf as [|x rest]; [reflexivity|]. cbn [nth_error].
    fold (requested tags x). cbn [filter].
    assert (Hx : ~ In x pre).
    { intros Hc. apply NoDup_remove_2 in Hnd. apply Hnd.
      apply in_or_app. left. assumption. }
    destruct (requested tags x) eqn:Ex; cbn [negb].
    + rewrite list_remove_app by assumption.
      destruct rest as [|y rest'].
      * cbn [filter]. rewrite !app_nil_r.
        assert (E : nth_error pre (S (List.length pre)) = None)
          by (apply nth_error_None; lia).
        clear IH. destruct fuel; cbn [nonwork_loop]; [reflexivity|].
        rewrite E. reflexivity.
      * destruct Hap as (Hy & Hap'). cbn [filter].
        rewrite (Hy Ex). cbn [negb].
        apply NoDup_remove_1 in Hnd.
        replace (pre ++ y :: rest') with ((pre ++ [y]) ++ rest') in *
          by (rewrite <- app_assoc; reflexivity).
        replace (S (List.length pre)) with (List.length (pre ++ [y]))
          by (rewrite length_app; simpl; lia).
        rewrite IH; [rewrite <- app_assoc; reflexivity|assumption| |].
        -- destruct Hap' as (_ & Hap''). exact Hap''.
        -- simpl in Hlen. lia.
    + destruct Hap as (_ & Hap').
      replace (pre ++ x :: rest) with ((pre ++ [x]) ++ rest) in *
        by (rewrite <- app_assoc; reflexivity).
      replace (S (List.length pre)) with (List.length (pre ++ [x]))
        by (rewrite length_app; simpl; lia).
      rewrite IH; [rewrite <- app_assoc; reflexivity|assumption|assumption|].
      simpl in Hlen. lia.
Qed.

(** X11: When the tag store lists each tag once and no two neighbouring
    [nonworkview] tags are both in the [tags] argument, the loop of lines
    167-171 leaves exactly the [nonworkview] tags that were not asked for.
    This covers every constraint holding one tag. *)
Theorem nonwork_tags_override (ds : datastore) (tags : option (list Tag)) :
  NoDup (get_all_tags (get_tagstore ds) (Some "nonworkview") "True") ->
  requested_apart tags
    (get_all_tags (get_tagstore ds) (Some "nonworkview") "True") ->
  nonwork_tags ds tags
  = filter (fun x => negb (requested tags x))
      (get_all_tags (get_tagstore ds) (Some "nonworkview") "True").
Proof.
  intros Hnd Hap. unfold nonwork_tags.
  apply (nonwork_loop_apart tags _ [] _ Hnd Hap). lia.
Qed.

Lemma nonwork_tags_override_witness :
  NoDup (get_all_tags (get_tagstore nonwork_store) (Some "nonworkview") "True") /\
  requested_apart (Some [tag_waiting])
    (get_all_tags (get_tagstore nonwork_store) (Some "nonworkview") "True") /\
  nonwork_tags nonwork_store (Some [tag_waiting]) = [tag_someday].
Proof.
  assert (Hnd : NoDup (get_all_tags (get_tagstore nonwork_store)
                         (Some "nonworkview") "True")).
  { change (NoDup [tag_someday; tag_waiting]).
    repeat constructor; simpl; intuition discriminate. }
  assert (Hap : requested_apart (Some [tag_waiting])
                  (get_all_tags (get_tagstore nonwork_store)
                     (Some "nonworkview") "True")).
  { change (requested_apart (Some [tag_waiting]) [tag_someday; tag_waiting]).
    simpl. split; [|tauto]. intros H. vm_compute in H. discriminate. }
  split; [exact Hnd|]. split; [exact Hap|].
  rewrite (nonwork_tags_override nonwork_store (Some [tag_waiting]) Hnd Hap).
  reflexivity.
Defined.

(** ** The used tags and the queries *)

Lemma used_tags_in (ds : datastore) (t : tid) (tk : Task) (tag : Tag) :
  In t (all_tasks ds) -> get_task ds t = Some tk -> In tag (get_tags tk) ->
  In tag (get_used_tags ds).
Proof.
  intros Hin Hg Htag. unfold get_used_tags.
  rewrite used_tags_loop, add_tags_first_seen. simpl.
  apply first_seen_in. split; [|intros []].
  apply in_flat_map. exists t. rewrite Hg. split; assumption.
Qed.

(** X12: Every tag carried by a task that a query returns is among the used
    tags. *)
Theorem returned_tags_are_used (ds : datastore) (tags : option (list Tag))
        (status : list string) (notag_only started_only is_root workable : bool)
        (t : tid) (tk : Task) (tag : Tag) :
  get_task ds t = Some tk ->
  In tag (get_tags tk) ->
  (forall l, get_tasks_list ds tags status notag_only started_only is_root = Ok l ->
             In t l -> In tag (get_used_tags ds)) /\
  (forall l, get_active_tasks_list ds tags notag_only started_only is_root workable
             = Ok l ->
             In t l -> In tag (get_used_tags ds)).
Proof.
  intros Hg Htag. split; intros l H Hin.
  - destruct (get_tasks_list_in _ _ _ _ _ _ _ _ H Hin) as (Hall & _).
    apply (used_tags_in ds t tk tag); assumption.
  - assert (Hall : In t (all_tasks ds)).
    { destruct workable.
      - rewrite get_active_tasks_list_workable in H. inversion H; subst l.
        apply filter_In in Hin. destruct Hin as (Hin & _).
        apply filter_In in Hin. tauto.
      - unfold get_active_tasks_list in H. rewrite active_tasks_flat_eq in H.
        destruct (get_tasks_list_in _ _ _ _ _ _ _ _ H Hin) as (Hall & _).
        assumption. }
    apply (used_tags_in ds t tk tag); assumption.
Qed.

Lemma returned_tags_are_used_witness :
  get_task scenario_store "B" = Some (mkTask "Active" [tag_urgent] [] true false true) /\
  In tag_urgent (get_tags (mkTask "Active" [tag_urgent] [] true false true)) /\
  get_tasks_list scenario_store None ["Active"] false false false = Ok ["A"; "B"] /\
  In tag_urgent (get_used_tags scenario_store).
Proof.
  split; [reflexivity|]. split; [left; reflexivity|]. split; [reflexivity|].
  apply (proj1 (returned_tags_are_used scenario_store None ["Active"]
                  false false false false "B"
                  (mkTask "Active" [tag_urgent] [] true false true) tag_urgent
                  eq_refl (or_introl eq_refl)) ["A"; "B"]);
    [reflexivity|right; left; reflexivity].
Defined.

(** ** The default work view *)

Lemma nonwork_tags_no_constraint (ds : datastore) (tags : option (list Tag)) :
  truthy tags = false ->
  nonwork_tags ds tags
  = get_all_tags (get_tagstore ds) (Some "nonworkview") "True".
Proof.
  intros Ht. unfold nonwork_tags.
  destruct tags as [[|x tags]|]; [|discriminate|];
    apply nonwork_loop_no_tags.
Qed.

(** X13: Without tag constraint the workable list always returns, whatever
    [started_only] and [is_root] are, and holds exactly the listed
    identifiers of loaded, started, workable tasks with status Active (and
    without tags when [notag_only]) that carry no tag flagged
    [nonworkview]. *)
Theorem workable_without_tags_spec (ds : datastore) (tags : option (list Tag))
        (notag_only started_only is_root : bool) :
  truthy tags = false ->
  exists l,
    get_active_tasks_list ds tags notag_only started_only is_root true = Ok l /\
    forall t,
      In t l <->
      In t (all_tasks ds) /\
      exists tk, get_task ds t = Some tk /\
                 passes_filters ["Active"] notag_only true tk /\
                 is_workable tk = true /\
                 forall tag,
                   In tag (get_tags tk) ->
                   ~ In tag (get_all_tags (get_tagstore ds)
                               (Some "nonworkview") "True").
Proof.
  intros Htr. rewrite get_active_tasks_list_workable.
  eexists. split; [reflexivity|]. intros t.
  rewrite !filter_In, accepted_iff, workable_keep_iff.
  rewrite (nonwork_tags_no_constraint ds tags Htr). unfold kept. split.
  - intros ((Hin & tk & Hg & Hp & _) & tk' & Hg' & Hw & Hex).
    rewrite Hg in Hg'. inversion Hg'; subst tk'.
    split; [assumption|]. exists tk. repeat split; try apply Hp; try assumption.
    intros tag Htag Hnw.
    apply (Hex ltac:(intros Hc; rewrite Hc in Hnw; contradiction) tag Hnw Htag).
  - intros (Hin & tk & Hg & Hp & Hw & Hex). split.
    + split; [assumption|]. exists tk.
      split; [assumption|]. split; [assumption|]. split.
      * intros Hc. rewrite Htr in Hc. discriminate.
      * discriminate.
    + exists tk. split; [assumption|]. split; [assumption|].
      intros _ tag Hnw Htag. exact (Hex tag Htag Hnw).
Qed.

Lemma workable_without_tags_spec_witness :
  truthy None = false /\
  exists l,
    get_active_tasks_list nonwork_store None false false true true = Ok l /\
    forall t,
      In t l <->
      In t (all_tasks nonwork_store) /\
      exists tk, get_task nonwork_store t = Some tk /\
                 passes_filters ["Active"] false true tk /\
                 is_workable tk = true /\
                 forall tag,
                   In tag (get_tags tk) ->
                   ~ In tag (get_all_tags (get_tagstore nonwork_store)
                               (Some "nonworkview") "True").
Proof.
  split; [reflexivity|].
  apply (workable_without_tags_spec nonwork_store None false false true).
  reflexivity.
Defined.

(** ** The workable selector *)

Lemma list_remove_incl (x y : Tag) (l : list Tag) :
  In x (list_remove y l) -> In x l.
Proof.
  induction l as [|z l IH]; simpl; [tauto|].
  destruct (Tag_eq_dec y z); simpl; tauto.
Qed.

Lemma nonwork_loop_incl (tags : option (list Tag)) (x : Tag) (fuel : nat) :
  forall (nonwork_tag : list Tag) (i : nat),
    In x (nonwork_loop fuel tags nonwork_tag i) -> In x nonwork_tag.
Proof.
  induction fuel as [|fuel IH]; intros nonwork_tag i; simpl; [tauto|].
  destruct (nth_error nonwork_tag i) as [nwtag|]; [|tauto].
  destruct (truthy tags && tag_in nwtag (tag_list tags)); intros H;
    apply IH in H; [apply (list_remove_incl x nwtag)|]; assumption.
Qed.

(** C3: whatever [started_only] and [is_root] the caller gives, the workable
    list is built in two steps.  The base list is the result of
    [get_tasks_list] for the status Active with the caller's [tags] and
    [notag_only], [started_only=True] and [is_root=False]: the identifiers
    of the store, in its order, that resolve to a loaded, started task with
    status Active passing the tag tests.  The result keeps, in order,
    exactly the candidates that are workable and, when the exclusion list is
    not empty, carry none of its tags.  The exclusion list is what the loop
    of lines 167-171 leaves of the tags that the tag store flags
    [nonworkview]: it holds only such tags, it holds every one of them that
    is not in [tags], and it is all of them without tag constraint. *)
Theorem get_active_tasks_list_workable_spec (ds : datastore)
        (tags : option (list Tag)) (notag_only started_only is_root : bool) :
  let nonwork := get_all_tags (get_tagstore ds) (Some "nonworkview") "True" in
  let excluded := nonwork_loop (List.length nonwork) tags nonwork 0 in
  exists temp_tasks,
    get_tasks_list ds tags ["Active"] notag_only true false = Ok temp_tasks /\
    get_active_tasks_list ds tags notag_only true false false = Ok temp_tasks /\
    (forall in_base : tid -> bool,
        (forall t,
            in_base t = true <->
            exists tk, get_task ds t = Some tk /\ is_loaded tk = true /\
                       get_status tk = "Active" /\ is_started tk = true /\
                       (notag_only = true -> get_tags tk = []) /\
                       (truthy tags = true ->
                        exists tag, In tag (tag_list tags) /\
                                    In tag (get_tags tk))) ->
        temp_tasks = filter in_base (all_tasks ds)) /\
    (forall keep : tid -> bool,
        (forall t,
            keep t = true <->
            exists tk, get_task ds t = Some tk /\ is_workable tk = true /\
                       (excluded <> [] ->
                        forall tag, In tag excluded -> ~ In tag (get_tags tk))) ->
        get_active_tasks_list ds tags notag_only started_only is_root true
        = Ok (filter keep temp_tasks)) /\
    (forall tag, In tag excluded -> In tag nonwork) /\
    (forall tag, In tag nonwork ->
                 ~ (truthy tags = true /\ In tag (tag_list tags)) ->
                 In tag excluded) /\
    (truthy tags = false -> excluded = nonwork) /\
    (NoDup nonwork -> requested_apart tags nonwork ->
     excluded = filter (fun x => negb (requested tags x)) nonwork).
Proof.
  intros nonwork excluded.
  exists (filter (accepted ds tags ["Active"] notag_only true false) (all_tasks ds)).
  split; [apply get_tasks_list_total; right; reflexivity|].
  split.
  { unfold get_active_tasks_list. rewrite active_tasks_flat_eq.
    apply get_tasks_list_total. right. reflexivity. }
  split.
  { intros in_base Hb. apply filter_ext. intros t. apply bool_eq_iff.
    rewrite Hb, accepted_iff. unfold kept, passes_filters. split.
    - intros (tk & Hg & (Hl & Hs & Hn & Hst) & Ht & _). exists tk.
      split; [assumption|]. split; [assumption|].
      split; [destruct Hs as [E|[]]; symmetry; assumption|].
      split; [apply Hst; reflexivity|]. split; [assumption|].
      intros Htr. apply has_tags_iff. apply Ht. assumption.
    - intros (tk & Hg & Hl & Hs & Hst & Hn & Ht). exists tk.
      split; [assumption|]. split.
      + split; [assumption|]. split; [left; symmetry; assumption|].
        split; [assumption|]. intros _. assumption.
      + split; [|discriminate]. intros Htr.
        split; [|discriminate]. apply has_tags_iff. apply Ht. assumption. }
  split.
  { intros keep Hk. rewrite get_active_tasks_list_workable. f_equal.
    apply filter_ext. intros t. apply bool_eq_iff.
    rewrite Hk, workable_keep_iff. reflexivity. }
  split; [intros tag; apply nonwork_loop_incl|].
  split.
  { intros tag Hin Hreq. apply nonwork_loop_keeps; [|assumption].
    destruct (truthy tags && tag_in tag (tag_list tags)) eqn:E; [|reflexivity].
    exfalso. apply Hreq. apply andb_true_iff in E. destruct E as (E1 & E2).
    split; [assumption|]. apply tag_in_iff. assumption. }
  split; [exact (nonwork_tags_no_constraint ds tags)|].
  intros Hnd Hap. apply (nonwork_loop_apart tags _ [] _ Hnd Hap). lia.
Qed.
